(** * Nishinomiya garbage calendar: the acquisition pipeline of [app.py]

    A shallow embedding of the scraping and normalisation code of
    [src/app.py] ([get_url_by_date], [get_weekday_str],
    [fetch_calendar_data], [fetch_detailed_guide], [map_guide_to_calendar])
    and the properties of it that the specification states.

    What the Python code takes from its libraries is kept abstract and
    enters as a variable of the section [App]: the answers of the web
    server, the Unicode digit table of the interpreter, the order in which
    pandas leaves rows of equal key, the order in which a [set] is
    enumerated, and [urllib.parse.urljoin]. Of these, the sort has an
    instance that follows the library's code: [npy_aquicksort], the
    quicksort numpy runs when pandas sorts the column of dates.

    The functions are modelled as their bodies run: the [st.cache_data]
    decorators, which may hand back the result of an earlier run, are not
    part of the model. Of [main], the blocks of the two tabs are modelled,
    as the sequence of widgets they show; its title, spinner and tab bar
    are not. *)

From Stdlib Require Import String Ascii.
From Stdlib Require Import ZArith NArith List Bool Lia.
From Stdlib Require Import Permutation Sorted DecimalZ.
Import ListNotations.

Local Open Scope Z_scope.

(** * Python values *)

(** ** Strings

    A Python [str] is a sequence of Unicode code points. *)
Module PyStr.

Definition char := N.
Definition str := list char.

(** String literals of the source are written as UTF-8 text and decoded
    to code points here. *)
Fixpoint utf8_decode (bs : list N) : str :=
  match bs with
  | [] => []
  | b0 :: r0 =>
    if (b0 <? 128)%N then b0 :: utf8_decode r0
    else
      match r0 with
      | [] => []
      | b1 :: r1 =>
        if (b0 <? 224)%N
        then ((b0 mod 32) * 64 + b1 mod 64)%N :: utf8_decode r1
        else
          match r1 with
          | [] => []
          | b2 :: r2 =>
            if (b0 <? 240)%N
            then ((b0 mod 16) * 4096 + (b1 mod 64) * 64 + b2 mod 64)%N
                 :: utf8_decode r2
            else
              match r2 with
              | [] => []
              | b3 :: r3 =>
                ((b0 mod 8) * 262144 + (b1 mod 64) * 4096
                 + (b2 mod 64) * 64 + b3 mod 64)%N :: utf8_decode r3
              end
          end
      end
  end.

Definition lit (s : String.string) : str :=
  utf8_decode (List.map Ascii.N_of_ascii (String.list_ascii_of_string s)).
Arguments lit s%_string.

Definition str_eq_dec : forall s t : str, {s = t} + {s <> t} :=
  list_eq_dec N.eq_dec.

Definition pair_eq_dec : forall p q : str * str, {p = q} + {p <> q}.
Proof. decide equality; apply str_eq_dec. Defined.

Definition str_eqb (s t : str) : bool :=
  if str_eq_dec s t then true else false.

(** [bool(s)]: a string is truthy when it is not empty. *)
Definition truthy (s : str) : bool :=
  match s with [] => false | _ :: _ => true end.

Fixpoint startswith (p t : str) : bool :=
  match p, t with
  | [], _ => true
  | _ :: _, [] => false
  | a :: p', b :: t' => (a =? b)%N && startswith p' t'
  end.

(** [p in t] on strings: [p] occurs in [t] as a contiguous substring. *)
Fixpoint contains (p t : str) : bool :=
  startswith p t ||
  match t with
  | [] => false
  | _ :: t' => contains p t'
  end.

Definition c_zero : char := 48%N.
Definition c_minus : char := 45%N.
Definition c_slash : char := 47%N.
Definition c_newline : char := 10%N.

(** [str(n)] for an [int]: the decimal digits, with a minus sign for a
    negative number. *)
Fixpoint digits_of_uint (u : Decimal.uint) : str :=
  match u with
  | Decimal.Nil => []
  | Decimal.D0 u' => 48%N :: digits_of_uint u'
  | Decimal.D1 u' => 49%N :: digits_of_uint u'
  | Decimal.D2 u' => 50%N :: digits_of_uint u'
  | Decimal.D3 u' => 51%N :: digits_of_uint u'
  | Decimal.D4 u' => 52%N :: digits_of_uint u'
  | Decimal.D5 u' => 53%N :: digits_of_uint u'
  | Decimal.D6 u' => 54%N :: digits_of_uint u'
  | Decimal.D7 u' => 55%N :: digits_of_uint u'
  | Decimal.D8 u' => 56%N :: digits_of_uint u'
  | Decimal.D9 u' => 57%N :: digits_of_uint u'
  end.

Definition str_of_int (z : Z) : str :=
  match Z.to_int z with
  | Decimal.Pos u => digits_of_uint u
  | Decimal.Neg u => c_minus :: digits_of_uint u
  end.

(** Zero padding on the left up to [width] characters. *)
Definition zfill (width : nat) (ds : str) : str :=
  repeat c_zero (width - List.length ds) ++ ds.

(** The format specification [0Nd]: sign-aware zero padding, the sign
    counts in the width. [format_0d 2 n] is [f"{n:02d}"]. *)
Definition format_0d (width : nat) (z : Z) : str :=
  match Z.to_int z with
  | Decimal.Pos u => zfill width (digits_of_uint u)
  | Decimal.Neg u => c_minus :: zfill (width - 1) (digits_of_uint u)
  end.

(** The ASCII digit of a value below ten. *)
Definition digit_char (d : Z) : char := (48 + Z.to_N d)%N.

Definition is_ascii_digit (c : char) : bool :=
  (48 <=? c)%N && (c <=? 57)%N.

End PyStr.
Import PyStr.

(** ** Exceptions

    The exceptions the code can meet; every one of them is an instance of
    [Exception]. *)
Inductive exn : Type :=
| ValueError
| OverflowError
| IndexError
| RequestException.

Inductive result (A : Type) : Type :=
| Ok (a : A)
| Raise (e : exn).
Arguments Ok {A} a.
Arguments Raise {A} e.

Definition rbind {A B} (r : result A) (k : A -> result B) : result B :=
  match r with
  | Ok a => k a
  | Raise e => Raise e
  end.

(** ** [datetime.date] *)
Module Datetime.

Record date : Type := mkdate { year : Z; month : Z; day : Z }.

Definition MINYEAR : Z := 1.
Definition MAXYEAR : Z := 9999.

Definition is_leap (y : Z) : bool :=
  (y mod 4 =? 0) && (negb (y mod 100 =? 0) || (y mod 400 =? 0)).

Definition days_in_month (y m : Z) : Z :=
  if (m =? 2) && is_leap y then 29
  else nth (Z.to_nat m) [0; 31; 28; 31; 30; 31; 30; 31; 31; 30; 31; 30; 31] 0.

(** The arguments of the constructor are converted to C [int]s. *)
Definition fits_c_int (z : Z) : bool :=
  (- 2147483648 <=? z) && (z <=? 2147483647).

(** [datetime.date(y, m, d)]: [OverflowError] for an argument that is no
    C [int], [ValueError] for a year, month or day out of range. *)
Definition date_new (y m d : Z) : result date :=
  if negb (fits_c_int y && fits_c_int m && fits_c_int d)
  then Raise OverflowError
  else if (y <? MINYEAR) || (MAXYEAR <? y) then Raise ValueError
  else if (m <? 1) || (12 <? m) then Raise ValueError
  else if (d <? 1) || (days_in_month y m <? d) then Raise ValueError
  else Ok (mkdate y m d).

Definition days_before_year (y : Z) : Z :=
  let p := y - 1 in p * 365 + p / 4 - p / 100 + p / 400.

Definition days_before_month (y m : Z) : Z :=
  nth (Z.to_nat m) [0; 0; 31; 59; 90; 120; 151; 181; 212; 243; 273; 304; 334] 0
  + (if (2 <? m) && is_leap y then 1 else 0).

Definition ymd_to_ord (y m d : Z) : Z :=
  days_before_year y + days_before_month y m + d.

(** [d.weekday()]: Monday is 0, Sunday is 6. *)
Definition weekday (d : date) : Z :=
  (ymd_to_ord (year d) (month d) (day d) + 6) mod 7.

(** Dates compare as (year, month, day) triples. *)
Definition date_leb (a b : date) : bool :=
  (year a <? year b)
  || ((year a =? year b)
      && ((month a <? month b)
          || ((month a =? month b) && (day a <=? day b)))).

Definition date_eqb (a b : date) : bool :=
  (year a =? year b) && (month a =? month b) && (day a =? day b).

(** [a >= b] *)
Definition date_geb (a b : date) : bool := date_leb b a.

End Datetime.
Import Datetime.

(** * Effects

    A function of [app.py] appends to one list of its own ([all_data],
    [guide_data]) and sends HTTP requests. A computation takes and returns
    the store of both; an exception leaves the store as it was when it was
    raised, so that what was appended before is still there in the handler
    (ExtLib's [stateT] over [sum] would drop it). *)
Section Effects.

Context {R : Type}.

Record store : Type := mkstore { requests : list str; rows : list R }.

Definition M (A : Type) : Type := store -> result A * store.

Definition ret {A} (a : A) : M A := fun s => (Ok a, s).

Definition bind {A B} (m : M A) (k : A -> M B) : M B :=
  fun s =>
    match m s with
    | (Ok a, s') => k a s'
    | (Raise e, s') => (Raise e, s')
    end.

Definition lift {A} (r : result A) : M A := fun s => (r, s).

(** [try: m except Exception: h] *)
Definition try_except {A} (m : M A) (h : M A) : M A :=
  fun s =>
    match m s with
    | (Ok a, s') => (Ok a, s')
    | (Raise _, s') => h s'
    end.

(** [rows.append(r)] *)
Definition append (r : R) : M unit :=
  fun s => (Ok tt, mkstore (requests s) (rows s ++ [r])).

Definition get_rows : M (list R) := fun s => (Ok (rows s), s).

(** [for x in xs: body(x)] *)
Fixpoint for_each {A} (xs : list A) (body : A -> M unit) : M unit :=
  match xs with
  | [] => ret tt
  | x :: xs' => bind (body x) (fun _ => for_each xs' body)
  end.

Definition empty_store : store := mkstore [] [].

End Effects.
Arguments store R : clear implicits.
Arguments M R A : clear implicits.

Declare Scope py_scope.
Delimit Scope py_scope with py.
Notation "x <- c ;; k" := (bind c (fun x => k))
  (at level 100, c at next level, right associativity) : py_scope.
Notation "c ;;; k" := (bind c (fun _ => k))
  (at level 100, right associativity) : py_scope.

(** * The pages, as BeautifulSoup shows them to the code *)

(** A content region ([div#main] or [div#contents]): its anchors, each
    with [link.get('href')] and [link.get_text(strip=True)], and its
    [get_text("\n", strip=True)] once [script] and [style] are removed. *)
Record region : Type := mkregion {
  anchors : list (option str * str);
  block_text : str
}.

(** A parsed page: for [soup.find('table')], the [tr] rows of the table,
    each the [get_text(strip=True)] of its [td] cells; and the two content
    regions looked up by identifier. *)
Record document : Type := mkdocument {
  first_table : option (list (list str));
  div_main : option region;
  div_contents : option region
}.

Record response : Type := mkresponse { status_code : Z; soup : document }.

(** What [requests.get] and the parsing of the body come to: an exception
    (timeout, connection error, ...) or a response. *)
Inductive http_result : Type :=
| Fails (e : exn)
| Responds (r : response).

(** [soup.find('div', id='main') or soup.find('div', id='contents')] *)
Definition content_area (d : document) : option region :=
  match div_main d with
  | Some r => Some r
  | None => div_contents d
  end.

(** * The data produced *)

(** A row of the calendar table. The columns "日付", "曜日" and
    "ゴミの種類" are [hizuke], [youbi] and [gomi_type]. *)
Record entry : Type := mkentry {
  date_obj : date;
  hizuke : str;
  youbi : str;
  gomi_type : str
}.

Record guide_record : Type := mkguide {
  category_name : str;
  calendar_name : str;
  details : str;
  url : str
}.

(** * Section 1 and 2 of [app.py] *)

Definition url_prefix : str :=
  Eval vm_compute in
    lit "https://www.nishi.or.jp/homepage/gomicalendar/calendar_b.html?date=".

Definition url_suffix : str :=
  Eval vm_compute in lit "&id=466#garbage-calendar".

(** [f"{year}-{month:02d}"] inside the address. Formatting an [int] of
    more digits than [sys.int_max_str_digits] raises [ValueError]; the
    callers pass the year and the month of a [datetime], a year up to
    [MAXYEAR + 1] and a month from 1 to 12, and the definition is for
    integers of that size. *)
Definition get_url_by_date (year month : Z) : str :=
  let date_str := str_of_int year ++ c_minus :: format_0d 2 month in
  url_prefix ++ date_str ++ url_suffix.

Definition weekdays : list str :=
  Eval vm_compute in
    [lit "月"; lit "火"; lit "水"; lit "木"; lit "金"; lit "土"; lit "日"].

(** [except ValueError] lets any other exception through. *)
Definition get_weekday_str (year month day : Z) : result str :=
  match date_new year month day with
  | Ok dt =>
    match nth_error weekdays (Z.to_nat (weekday dt)) with
    | Some w => Ok w
    | None => Raise IndexError
    end
  | Raise ValueError => Ok []
  | Raise e => Raise e
  end.

Definition base_url : str :=
  Eval vm_compute in
    lit "https://www.nishi.or.jp/kurashi/gomi/gominoshushu/gominobunnbetu.html".

Definition keywords : list str :=
  Eval vm_compute in
    [lit "もやすごみ"; lit "燃やさないごみ"; lit "資源"; lit "ペットボトル";
     lit "プラ"; lit "危険"].

(** The dictionary of [map_guide_to_calendar], in insertion order. *)
Definition mapping : list (str * str) :=
  Eval vm_compute in
    [(lit "もやすごみ", lit "燃やすごみ");
     (lit "燃やさないごみ", lit "燃やさないごみ");
     (lit "資源A", lit "資源A");
     (lit "資源B", lit "資源B");
     (lit "その他プラ", lit "その他プラ");
     (lit "ペットボトル", lit "ペットボトル")].

Fixpoint first_match (items : list (str * str)) (guide_title : str) : option str :=
  match items with
  | [] => None
  | (key, val) :: items' =>
    if contains key guide_title then Some val else first_match items' guide_title
  end.

Definition map_guide_to_calendar (guide_title : str) : str :=
  match first_match mapping guide_title with
  | Some val => val
  | None => guide_title
  end.

(** [years_months] of [fetch_calendar_data]: this month and the next. *)
Definition years_months (now : date) : list (Z * Z) :=
  [(year now, month now);
   if month now =? 12 then (year now + 1, 1) else (year now, month now + 1)].

Section App.

Local Open Scope py_scope.

(** The decimal value of a character of Unicode category Nd, which is
    what [\d] matches and what [int] converts; [None] for any other
    character. The table is the interpreter's. *)
Variable digit_value : char -> option Z.

(** [sys.get_int_max_str_digits()]: 0 when there is no limit. *)
Variable int_max_str_digits : nat.

(** The web: the answer to a GET depends on the address and on the
    requests sent before it. *)
Variable http : list str -> str -> http_result.

(** [df.sort_values('date_obj')], with pandas' default sort kind. *)
Variable sort_values : list entry -> list entry.

(** [urllib.parse.urljoin], which raises on a malformed address. *)
Variable urljoin : str -> str -> result str.

(** [list(set(xs))]: the order of the result is not specified. *)
Variable list_set : list (str * str) -> list (str * str).

Definition requests_get {R} (url : str) : M R response :=
  fun s =>
    let s' := mkstore (requests s ++ [url]) (rows s) in
    match http (requests s) url with
    | Fails e => (Raise e, s')
    | Responds r => (Ok r, s')
    end.

(** ** [re.match] with the pattern of [fetch_calendar_data]

    Group 1 is one or more digits (greedy), group 2 is whatever follows
    on the same line. *)

Fixpoint span_digits (t : str) : str * str :=
  match t with
  | [] => ([], [])
  | c :: t' =>
    match digit_value c with
    | Some _ => let (ds, r) := span_digits t' in (c :: ds, r)
    | None => ([], t)
    end
  end.

(** [.] matches any character but a newline. *)
Fixpoint upto_newline (t : str) : str :=
  match t with
  | [] => []
  | c :: t' => if (c =? c_newline)%N then [] else c :: upto_newline t'
  end.

(** Groups 1 and 2 of the match, [None] when there is no match. *)
Definition re_match (text : str) : option (str * str) :=
  let (ds, r) := span_digits text in
  match ds with
  | [] => None
  | _ :: _ => Some (ds, upto_newline r)
  end.

(** ** [int(s)] for a string of digits *)

Fixpoint int_of_digits (acc : Z) (ds : str) : result Z :=
  match ds with
  | [] => Ok acc
  | c :: ds' =>
    match digit_value c with
    | Some v => int_of_digits (10 * acc + v) ds'
    | None => Raise ValueError
    end
  end.

Definition py_int (s : str) : result Z :=
  match s with
  | [] => Raise ValueError
  | _ :: _ =>
    if (0 <? int_max_str_digits)%nat && (int_max_str_digits <? List.length s)%nat
    then Raise ValueError
    else int_of_digits 0 s
  end.

(** ** [fetch_calendar_data] *)

(** The body of [for col in cols]. *)
Definition parse_cell (now : date) (year month : Z) (text : str) : M entry unit :=
  if truthy text then
    match re_match text with
    | Some (g1, g2) =>
      day_num <- lift (py_int g1) ;;
      let gomi_type := g2 in
      date_obj <- lift (date_new year month day_num) ;;
      if date_geb date_obj now then
        youbi <- lift (get_weekday_str year month day_num) ;;
        append (mkentry date_obj
                        (str_of_int month ++ c_slash :: str_of_int day_num)
                        youbi
                        gomi_type)
      else ret tt
    | None => ret tt
    end
  else ret tt.

(** The body of [for year, month in years_months]. *)
Definition fetch_month (now : date) (ym : Z * Z) : M entry unit :=
  let (year, month) := ym in
  let url := get_url_by_date year month in
  try_except
    (response <- requests_get url ;;
     if status_code response =? 200 then
       match first_table (soup response) with
       | Some rows =>
         for_each rows (fun cols => for_each cols (parse_cell now year month))
       | None => ret tt
       end
     else ret tt)
    (ret tt).

(** The loop over the two months, which fills [all_data]. *)
Definition scrape_calendar (now : date) : M entry unit :=
  for_each (years_months now) (fetch_month now).

(** [pd.DataFrame(all_data)], sorted unless empty. The table is the list
    of its rows. *)
Definition fetch_calendar_data (now : date) : M entry (list entry) :=
  scrape_calendar now ;;;
  all_data <- get_rows ;;
  match all_data with
  | [] => ret []
  | _ :: _ => ret (sort_values all_data)
  end.

(** ** [fetch_detailed_guide] *)

(** The loop over the anchors, which fills [target_urls]. *)
Fixpoint collect_targets (links : list (option str * str)) : result (list (str * str)) :=
  match links with
  | [] => Ok []
  | (href, text) :: links' =>
    match href with
    | Some h =>
      if truthy h && truthy text
         && existsb (fun k => contains k text) keywords
      then
        rbind (urljoin base_url h) (fun full_url =>
        rbind (collect_targets links') (fun rest =>
        Ok ((text, full_url) :: rest)))
      else collect_targets links'
    | None => collect_targets links'
    end
  end.

(** The body of [for title, link_url in target_urls]. *)
Definition fetch_page (target : str * str) : M guide_record unit :=
  let (title, link_url) := target in
  try_except
    (sub_res <- requests_get link_url ;;
     match content_area (soup sub_res) with
     | Some sub_content =>
       let details_text := block_text sub_content in
       let mapped_category := map_guide_to_calendar title in
       append (mkguide title mapped_category details_text link_url)
     | None => ret tt
     end)
    (ret tt).

Definition fetch_detailed_guide : M guide_record (list guide_record) :=
  try_except
    (res <- requests_get base_url ;;
     match content_area (soup res) with
     | None => ret []
     | Some area =>
       target_urls <- lift (collect_targets (anchors area)) ;;
       let target_urls := list_set target_urls in
       for_each target_urls fetch_page ;;;
       get_rows
     end)
    (ret []).

End App.

(** Running a function of [app.py] from a fresh store: its result (or the
    exception that leaves it), the requests it sent and the list it built. *)
Definition run {R A} (m : M R A) : result A * store R := m empty_store.

(** * Vocabulary of the specification *)

(** Rows are compared on their [date_obj] column. *)
Definition entry_le (a b : entry) : Prop :=
  date_leb (date_obj a) (date_obj b) = true.

(** What pandas documents of [sort_values]: the rows of the result are the
    rows of the table, in non-decreasing order of the key. The default
    kind, quicksort, is not stable. *)
Definition sort_contract (sort_values : list entry -> list entry) : Prop :=
  forall l, Permutation l (sort_values l) /\ Sorted entry_le (sort_values l).

(** Rows of equal date stand in [out] in the order they have in [scraped]. *)
Definition ties_in_scrape_order (scraped out : list entry) : Prop :=
  forall d,
    filter (fun e => date_eqb (date_obj e) d) out
    = filter (fun e => date_eqb (date_obj e) d) scraped.

(** What Python guarantees of [list(set(xs))]: the elements of [xs], each
    once, in some order. *)
Definition set_contract (list_set : list (str * str) -> list (str * str)) : Prop :=
  forall l, NoDup (list_set l) /\ (forall p, In p (list_set l) <-> In p l).

(** The (category_name, url) pair of a guide record. *)
Definition record_key (r : guide_record) : str * str :=
  (category_name r, url r).

(** The specification's YYYY-MM: the year on four digits and the month on
    two, both padded with zeros. *)
Definition iso_year_month (y m : Z) : str :=
  zfill 4 (str_of_int y) ++ c_minus :: zfill 2 (str_of_int m).

(** [s'] is [s] with rows added that all satisfy [P], and no request
    sent in between. *)
Definition extends_with {R} (P : R -> Prop) (s s' : store R) : Prop :=
  requests s' = requests s
  /\ exists new, rows s' = rows s ++ new /\ Forall P new.

(** What holds of a row when it is appended to [all_data]: its date is a
    date of the calendar, not before [now], and its weekday column is the
    label of that date. *)
Definition emitted (now : date) (e : entry) : Prop :=
  let d := date_obj e in
  date_new (year d) (month d) (day d) = Ok d
  /\ date_geb d now = true
  /\ get_weekday_str (year d) (month d) (day d) = Ok (youbi e)
  /\ In (youbi e) weekdays.

(** The records a linked page gives, by the answer to its request: one
    when the page arrives and has a content region, none otherwise. *)
Definition page_record (answer : http_result) (target : str * str) : list guide_record :=
  match answer with
  | Responds r =>
    match content_area (soup r) with
    | Some c =>
      [mkguide (fst target) (map_guide_to_calendar (fst target))
               (block_text c) (snd target)]
    | None => []
    end
  | Fails _ => []
  end.

(** * Instances of the library parameters

    Used to run the code on concrete pages. *)

(** The digit table restricted to ASCII and to the fullwidth digits. *)
Definition digit_value_jp (c : char) : option Z :=
  if (48 <=? c)%N && (c <=? 57)%N then Some (Z.of_N c - 48)
  else if (65296 <=? c)%N && (c <=? 65305)%N then Some (Z.of_N c - 65296)
  else None.

(** CPython's default limit on the digits of an integer literal. *)
Definition default_max_str_digits : nat := 4300.

Fixpoint insert_entry (x : entry) (l : list entry) : list entry :=
  match l with
  | [] => [x]
  | y :: l' =>
    if date_leb (date_obj x) (date_obj y) then x :: l
    else y :: insert_entry x l'
  end.

(** A sort that keeps rows of equal date in table order. *)
Definition sort_stable (l : list entry) : list entry :=
  fold_right insert_entry [] l.

(** ** [sort_values] as pandas and numpy run it on the [date_obj] column

    [df.sort_values('date_obj')] sorts on one column of [datetime.date]
    objects, an array of dtype object. pandas' [nargsort] calls
    [argsort(kind='quicksort')] on it; numpy has no typed sort for
    objects and runs the generic [npy_aquicksort] of
    [npysort/quicksort.cpp], whose comparison is negative when the first
    date is [<] the second; the frame then takes its rows in the order
    of the indices returned.

    The functions below follow that C function. [a] is the index array
    [tosort], which starts as 0, 1, ..., n-1; [pl], [pr], [pm], [pi],
    [pj] are positions in it, counted from 0; [vp] and [vi] are row
    indices, standing for the keys they point at. *)
Section Argsort.

(** The column, one key per row. *)
Variable v : list date.

(** [cmp(v + i * elsize, v + j * elsize, arr) < 0] *)
Definition cmp_lt (i j : nat) : bool :=
  match nth_error v i, nth_error v j with
  | Some x, Some y => negb (date_leb y x)
  | _, _ => false
  end.

Definition SMALL_QUICKSORT : Z := 16.

(** [a[p]] *)
Definition tosort_get (a : list nat) (p : Z) : nat :=
  nth (Z.to_nat p) a 0%nat.

(** [a[p] = x] *)
Definition tosort_set (a : list nat) (p : Z) (x : nat) : list nat :=
  firstn (Z.to_nat p) a ++ x :: skipn (S (Z.to_nat p)) a.

Definition INTP_SWAP (a : list nat) (p q : Z) : list nat :=
  tosort_set (tosort_set a p (tosort_get a q)) q (tosort_get a p).

(** [do { ++pi; } while (cmp(a[pi], vp) < 0 && pi < pj);] The scan ends
    within [pj - pi] steps. *)
Fixpoint scan_up (steps : nat) (a : list nat) (vp : nat) (pi pj : Z) : Z :=
  let pi := pi + 1 in
  if cmp_lt (tosort_get a pi) vp && (pi <? pj) then
    match steps with
    | O => pi
    | S steps' => scan_up steps' a vp pi pj
    end
  else pi.

(** [do { --pj; } while (cmp(vp, a[pj]) < 0 && pi < pj);] *)
Fixpoint scan_down (steps : nat) (a : list nat) (vp : nat) (pi pj : Z) : Z :=
  let pj := pj - 1 in
  if cmp_lt vp (tosort_get a pj) && (pi <? pj) then
    match steps with
    | O => pj
    | S steps' => scan_down steps' a vp pi pj
    end
  else pj.

(** The [for (;;)] of the partition: scan from both ends, leave when the
    positions meet, swap and go on otherwise. Every round moves both
    positions, so [pj - pi] rounds are enough. *)
Fixpoint partition_loop (rounds : nat) (a : list nat) (vp : nat) (pi pj : Z)
  : list nat * Z :=
  let pi := scan_up (Z.to_nat (pj - pi)) a vp pi pj in
  let pj := scan_down (Z.to_nat (pj - pi)) a vp pi pj in
  if pi >=? pj then (a, pi)
  else
    match rounds with
    | O => (a, pi)
    | S rounds' => partition_loop rounds' (INTP_SWAP a pi pj) vp pi pj
    end.

(** [while (pj > pl && cmp(vp, a[pk]) < 0) { a[pj--] = a[pk--]; } a[pj] = vi;]
    with [pk = pj - 1] throughout. *)
Fixpoint insert_down (steps : nat) (a : list nat) (vi : nat) (pl pj : Z) : list nat :=
  match steps with
  | O => tosort_set a pj vi
  | S steps' =>
    if (pl <? pj) && cmp_lt vi (tosort_get a (pj - 1))
    then insert_down steps' (tosort_set a pj (tosort_get a (pj - 1))) vi pl (pj - 1)
    else tosort_set a pj vi
  end.

(** [for (pi = pl + 1; pi <= pr; ++pi)]: the insertion sort of the
    positions [pl] to [pr]. A key moves down only past keys that are
    strictly greater. *)
Definition insertion_sort (a : list nat) (pl pr : Z) : list nat :=
  fold_left
    (fun a k =>
       let pi := pl + 1 + Z.of_nat k in
       insert_down (Z.to_nat (pi - pl)) a (tosort_get a pi) pl pi)
    (seq 0 (Z.to_nat (pr - pl)))
    a.

(** The outer [while (1)] with its stack of ranges. [popped] tells that
    the range was just taken from the stack, or is the first: only then
    is the depth [cdepth] tested. A range of more than 17 positions is
    partitioned around the median of its first, middle and last keys,
    the smaller part is sorted next and the larger pushed; a shorter
    range is sorted by insertion. [None] when the depth is used up,
    where numpy turns to heapsort, which is not modelled; the [fuel]
    bounds the number of ranges, at most two for each partition. *)
Fixpoint sort_ranges (fuel : nat) (popped : bool) (a : list nat) (pl pr : Z)
  (stack : list (Z * Z * Z)) (cdepth : Z) : option (list nat) :=
  match fuel with
  | O => None
  | S fuel' =>
    if popped && (cdepth <? 0) then None
    else if pr - pl >? SMALL_QUICKSORT then
      let pm := pl + Z.shiftr (pr - pl) 1 in
      let a := if cmp_lt (tosort_get a pm) (tosort_get a pl) then INTP_SWAP a pm pl else a in
      let a := if cmp_lt (tosort_get a pr) (tosort_get a pm) then INTP_SWAP a pr pm else a in
      let a := if cmp_lt (tosort_get a pm) (tosort_get a pl) then INTP_SWAP a pm pl else a in
      let vp := tosort_get a pm in
      let pi := pl in
      let pj := pr - 1 in
      let a := INTP_SWAP a pm pj in
      let (a, pi) := partition_loop (Z.to_nat (pj - pi)) a vp pi pj in
      let pk := pr - 1 in
      let a := INTP_SWAP a pi pk in
      let cdepth := cdepth - 1 in
      if pi - pl <? pr - pi
      then sort_ranges fuel' false a pl (pi - 1) ((pi + 1, pr, cdepth) :: stack) cdepth
      else sort_ranges fuel' false a (pi + 1) pr ((pl, pi - 1, cdepth) :: stack) cdepth
    else
      let a := insertion_sort a pl pr in
      match stack with
      | [] => Some a
      | (pl, pr, cdepth) :: stack' => sort_ranges fuel' true a pl pr stack' cdepth
      end
  end.

(** [npy_get_msb(num)], the position of the highest bit set. *)
Definition npy_get_msb (num : Z) : Z := Z.log2 num.

Definition npy_aquicksort : option (list nat) :=
  let num := Z.of_nat (List.length v) in
  sort_ranges (2 * List.length v + 1) true (seq 0 (List.length v))
              0 (num - 1) [] (npy_get_msb num * 2).

End Argsort.

(** [df.take(indexer)] *)
Definition take (l : list entry) (indexer : list nat) : list entry :=
  flat_map (fun i => match nth_error l i with Some e => [e] | None => [] end)
           indexer.

(** [df.sort_values('date_obj')], where the quicksort does not turn to
    heapsort. *)
Definition sort_values_quicksort (l : list entry) : option (list entry) :=
  option_map (take l) (npy_aquicksort (map date_obj l)).

(** The same as a function of every table, to stand for [sort_values] in
    [fetch_calendar_data]; a table is left as it is where
    [sort_values_quicksort] has no answer. *)
Definition sort_values_pandas (l : list entry) : list entry :=
  match sort_values_quicksort l with
  | Some sorted => sorted
  | None => l
  end.

(** [urljoin] on addresses that are already absolute. *)
Definition urljoin_absolute (base href : str) : result str := Ok href.

(** [list(set(xs))] enumerated in order of last occurrence. *)
Definition list_set_nodup (l : list (str * str)) : list (str * str) :=
  nodup pair_eq_dec l.

(** A web that serves fixed pages and fails on any other address. *)
Fixpoint serve (pages : list (str * http_result)) (history : list str) (url : str)
  : http_result :=
  match pages with
  | [] => Fails RequestException
  | (u, r) :: pages' =>
    if str_eqb u url then r else serve pages' history url
  end.

(** A web that answers one address with a fixed response and is [http]
    everywhere else. *)
Definition answering (url : str) (r : response)
  (http : list str -> str -> http_result) (history : list str) (u : str)
  : http_result :=
  if str_eqb u url then Responds r else http history u.

Definition calendar_page (rows : list (list str)) : http_result :=
  Responds (mkresponse 200 (mkdocument (Some rows) None None)).

Definition guide_page (links : list (option str * str)) (text : str) : http_result :=
  Responds (mkresponse 200 (mkdocument None (Some (mkregion links text)) None)).

(** April 2024, a 30-day month, with a stray cell "31" between two
    collection days. *)
Definition web_april_31 : list str -> str -> http_result :=
  serve [(get_url_by_date 2024 4,
          calendar_page [[lit "1燃やすごみ"; lit "31"; lit "2ペットボトル"]])].

(** The same page without the stray cell. *)
Definition web_april : list str -> str -> http_result :=
  serve [(get_url_by_date 2024 4,
          calendar_page [[lit "1燃やすごみ"; lit "2ペットボトル"]; [lit "15"]])].

(** A page with two collections on the same day. *)
Definition web_two_on_5th : list str -> str -> http_result :=
  serve [(get_url_by_date 2024 4,
          calendar_page [[lit "5燃やすごみ"; lit "5ペットボトル"]])].

(** A page with eighteen cells for the same day, labelled a to r. *)
Definition web_eighteen_on_5th : list str -> str -> http_result :=
  serve [(get_url_by_date 2024 4,
          calendar_page
            [[lit "5a"; lit "5b"; lit "5c"; lit "5d"; lit "5e"; lit "5f";
              lit "5g"; lit "5h"; lit "5i"; lit "5j"; lit "5k"; lit "5l";
              lit "5m"; lit "5n"; lit "5o"; lit "5p"; lit "5q"; lit "5r"]])].

(** April 2024 with a digits-only cell "15" alone, and with the stray
    cell "31" before it. *)
Definition web_april_15 : list str -> str -> http_result :=
  serve [(get_url_by_date 2024 4, calendar_page [[lit "15"]])].

Definition web_april_31_15 : list str -> str -> http_result :=
  serve [(get_url_by_date 2024 4, calendar_page [[lit "31"; lit "15"]])].

Definition moyasu_title : str := Eval vm_compute in lit "もやすごみ".

Definition moyasu_url : str :=
  Eval vm_compute in lit "https://www.nishi.or.jp/kurashi/gomi/moyasu.html".

(** An index page that links the same guide page twice. *)
Definition index_twice : http_result :=
  guide_page [(Some moyasu_url, moyasu_title); (Some moyasu_url, moyasu_title)] [].

(** The linked page is served. *)
Definition web_guide : list str -> str -> http_result :=
  serve [(base_url, index_twice);
         (moyasu_url, guide_page [] (lit "生ごみ"))].

(** The linked page is out of reach. *)
Definition web_guide_down : list str -> str -> http_result :=
  serve [(base_url, index_twice)].

(** * Readings of the loops

    What the loops of [fetch_calendar_data] and [fetch_detailed_guide]
    leave in their lists, read off the embedded bodies. *)

(** The rows the cells of a month add, in reading order. The rows of a
    cell are those [parse_cell] leaves in a fresh store; the loop over the
    cells ends at the first cell that raises. *)
Fixpoint month_rows (digit_value : char -> option Z) (int_max_str_digits : nat)
  (now : date) (year month : Z) (cells : list str) : list entry :=
  match cells with
  | [] => []
  | text :: cells' =>
    match parse_cell digit_value int_max_str_digits now year month text empty_store with
    | (Ok _, s) =>
      rows s ++ month_rows digit_value int_max_str_digits now year month cells'
    | (Raise _, s) => rows s
    end
  end.

(** An answer that gives the calendar nothing: a failed request, a status
    other than 200, or a page without a table. *)
Definition barren (answer : http_result) : bool :=
  match answer with
  | Fails _ => true
  | Responds r =>
    negb (status_code r =? 200)
    || match first_table (soup r) with Some _ => false | None => true end
  end.

(** The records the loop over [target_urls] adds; the request for a page
    is answered after the requests sent before it. *)
Fixpoint crawl_rows (http : list str -> str -> http_result)
  (history : list str) (tasks : list (str * str)) : list guide_record :=
  match tasks with
  | [] => []
  | target :: tasks' =>
    page_record (http history (snd target)) target
    ++ crawl_rows http (history ++ [snd target]) tasks'
  end.

(** The test of the loop over the anchors: an address, a text, and a
    keyword in the text. *)
Definition qualifies (link : option str * str) : bool :=
  match fst link with
  | Some h =>
    truthy h && truthy (snd link)
    && existsb (fun k => contains k (snd link)) keywords
  | None => false
  end.

(** [urljoin] that refuses an address with an unclosed bracket, as
    [urllib] does for a malformed IPv6 host, and takes any other address
    as absolute. *)
Definition urljoin_brackets (base href : str) : result str :=
  if existsb (N.eqb 91) href && negb (existsb (N.eqb 93) href)
  then Raise ValueError
  else Ok href.

(** An index page whose second link is malformed. *)
Definition web_guide_bad_link : list str -> str -> http_result :=
  serve [(base_url,
          guide_page [(Some moyasu_url, moyasu_title);
                      (Some (lit "http://[nishi/"), lit "資源A")] []);
         (moyasu_url, guide_page [] (lit "生ごみ"))].

(** An index page with three links, the second of which is out of reach. *)
Definition web_guide_three : list str -> str -> http_result :=
  serve [(base_url,
          guide_page [(Some (lit "https://nishi/a"), lit "もやすごみ");
                      (Some (lit "https://nishi/b"), lit "資源A");
                      (None, lit "資源B");
                      (Some (lit "https://nishi/top"), lit "トップ");
                      (Some (lit "https://nishi/c"), lit "ペットボトル")] []);
         (lit "https://nishi/a", guide_page [] (lit "生ごみ"));
         (lit "https://nishi/c", guide_page [] (lit "ボトル"))].

(** * Section 3 of [app.py]: what [main] shows

    The calls of Streamlit that [main] makes in its two tabs, in order.
    [main] takes the table and the guide from the two fetch functions (or
    from their caches) and reads the clock again. *)
#[warnings="-register-all"]
Inductive widget : Type :=
| st_markdown (body : str)
| st_success (body : str)
| st_info (body : str)
| st_warning (body : str)
| st_error (body : str)
| st_caption (body : str)
| st_header (body : str)
| st_subheader (body : str)
| st_divider
| st_table (index_and_columns : list (str * (str * str)))
| st_link_button (label link : str)
| st_text (body : str)
| st_write (body : str)
| st_text_input (label value : str)
| st_expander (label : str) (inside : list widget)
| st_container.

(** [one_week_df[['日付', '曜日', 'ゴミの種類']].set_index('日付')] *)
Definition table_of (df : list entry) : list (str * (str * str)) :=
  map (fun e => (hizuke e, (youbi e, gomi_type e))) df.

(** The f-strings of the first tab. *)
Definition official_link (now : date) : str :=
  lit "**公式サイトで確認:** [👉 西宮市ごみカレンダー (" ++ str_of_int (month now)
  ++ lit "月分)](" ++ get_url_by_date (year now) (month now) ++ lit ")".

Definition today_text (row : entry) : str :=
  lit "**今日は " ++ hizuke row ++ lit " (" ++ youbi row ++ lit ")**".

Definition today_type (row : entry) : str :=
  lit "<h1 style='text-align: center; color: #ff4b4b;'>" ++ gomi_type row
  ++ lit "</h1>".

Definition next_text (next_row : entry) : str :=
  lit "今日は収集がありません。次は " ++ hizuke next_row ++ lit " (" ++ youbi next_row
  ++ lit ") の " ++ gomi_type next_row ++ lit " です。".

Definition later_text (g_type : str) (next_row : entry) : str :=
  lit "**" ++ g_type ++ lit "** は、少し先の **" ++ hizuke next_row ++ lit " ("
  ++ youbi next_row ++ lit ")** です".

(** The loop over [missing_types]: the messages shown and [found_count]. *)
Fixpoint later_infos (rest_df : list entry) (missing_types : list str) : list widget * Z :=
  match missing_types with
  | [] => ([], 0)
  | g_type :: types' =>
    let next_match := filter (fun e => str_eqb (gomi_type e) g_type) rest_df in
    let (shown, found_count) := later_infos rest_df types' in
    match next_match with
    | next_row :: _ => (st_info (later_text g_type next_row) :: shown, found_count + 1)
    | [] => (shown, found_count)
    end
  end.

(** The f-strings of the second tab. *)
Definition candidate_text (cat_name : str) : str :=
  lit "### 💡 " ++ cat_name ++ lit " の可能性があります".

Definition pickup_text (next_pickup : entry) : str :=
  lit "**次の収集日:** 📅 **" ++ hizuke next_pickup ++ lit " (" ++ youbi next_pickup
  ++ lit ")**".

Definition page_link (item : guide_record) : str :=
  lit "[公式ページで見る](" ++ url item ++ lit ")".

Definition not_found_text (query : str) : str :=
  lit "「" ++ query ++ lit "」は見つかりませんでした。".

Definition category_line (item : guide_record) : str :=
  lit "- [" ++ category_name item ++ lit "](" ++ url item ++ lit ")".

(** [details[:300] + "..." if len(details) > 300 else details] *)
Definition preview (details : str) : str :=
  if (300 <? List.length details)%nat
  then firstn 300 details ++ lit "..."
  else details.

(** [query in item['details'] or query in item['category_name']] *)
Definition hit (query : str) (item : guide_record) : bool :=
  contains query (details item) || contains query (category_name item).

(** The second tab can end in an exception that nothing in [main]
    catches, the error of [re] for a label that is no regular expression.
    A computation of the display takes the widgets shown so far and
    returns them with those it adds; what was shown before the exception
    stays. *)
Inductive shown (A : Type) : Type :=
| Done (a : A)
| Crashed.
Arguments Done {A} a.
Arguments Crashed {A}.

Definition W (A : Type) : Type := list widget -> shown A * list widget.

Definition wret {A} (a : A) : W A := fun page => (Done a, page).

Definition wbind {A B} (m : W A) (k : A -> W B) : W B :=
  fun page =>
    match m page with
    | (Done a, page') => k a page'
    | (Crashed, page') => (Crashed, page')
    end.

Definition show (w : widget) : W unit := fun page => (Done tt, page ++ [w]).

Definition wlift {A} (o : option A) : W A :=
  fun page => (match o with Some a => Done a | None => Crashed end, page).

Declare Scope st_scope.
Delimit Scope st_scope with st.
Notation "x <- c ;; k" := (wbind c (fun x => k))
  (at level 100, c at next level, right associativity) : st_scope.
Notation "c ;;; k" := (wbind c (fun _ => k))
  (at level 100, right associativity) : st_scope.

Section Display.

Local Open Scope st_scope.

(** The order in which a set of labels is enumerated. *)
Variable label_set : list str -> list str.

(** [Series.str.contains(pat, na=False)] on one label: a search for the
    regular expression [pat]; [None] when [re] raises because [pat] is no
    regular expression. *)
Variable regex_search : str -> str -> option bool.

(** The block [with tab1:]. *)
Definition main_tab1 (now : date) (df_calendar : list entry) : list widget :=
  let current_month_url := get_url_by_date (year now) (month now) in
  st_markdown (official_link now)
  :: match df_calendar with
     | _ :: _ =>
       let today_date := now in
       let future_df :=
         filter (fun e => date_geb (date_obj e) today_date) df_calendar in
       match future_df with
       | first_row :: _ =>
         let today_df :=
           filter (fun e => date_eqb (date_obj e) today_date) future_df in
         match today_df with
         | row :: _ =>
           [st_markdown (lit "### 📅 今日の収集");
            st_success (today_text row);
            st_markdown (today_type row)]
         | [] => [st_info (next_text first_row)]
         end
         ++ st_divider
         :: let one_week_df := firstn 7 future_df in
            let rest_df := skipn 7 future_df in
            st_subheader (lit "📋 向こう1週間の予定")
            :: st_table (table_of one_week_df)
            :: st_subheader (lit "👀 次回以降の予定 (1週間以内にないもの)")
            :: let types_in_week := map gomi_type one_week_df in
               let types_in_rest := map gomi_type rest_df in
               let missing_types :=
                 filter (fun t => negb (existsb (str_eqb t) types_in_week))
                        types_in_rest in
               match missing_types with
               | _ :: _ =>
                 let (shown, found_count) :=
                   later_infos rest_df (label_set missing_types) in
                 shown
                 ++ (if found_count =? 0
                     then [st_caption (lit "※これ以外の収集予定は今のところありません。")]
                     else [])
               | [] =>
                 [st_caption (lit "※主要なゴミはすべて1週間以内に収集があります。")]
               end
       | [] => [st_warning (lit "これ以降の収集予定が見つかりませんでした。")]
       end
     | [] =>
       [st_error (lit "カレンダーデータが取得できませんでした。");
        st_link_button (lit "公式サイトを直接見る") current_month_url]
     end.

(** The mask of [str.contains] over the whole column. *)
Fixpoint contains_mask (pat : str) (df : list entry) : option (list bool) :=
  match df with
  | [] => Some []
  | e :: df' =>
    match regex_search pat (gomi_type e), contains_mask pat df' with
    | Some b, Some bs => Some (b :: bs)
    | _, _ => None
    end
  end.

(** [matches]: the rows whose label matches [cal_name] and whose date is
    not before [today]. *)
Definition matches (cal_name : str) (today : date) (df_calendar : list entry)
  : option (list entry) :=
  match contains_mask cal_name df_calendar with
  | Some mask =>
    Some (map fst
            (filter (fun eb => snd eb && date_geb (date_obj (fst eb)) today)
                    (combine df_calendar mask)))
  | None => None
  end.

(** The body of [for item in guide_list] for a record that the query
    hits; [today] is the date the clock shows at that moment. A container
    is opened by [st_container] and holds what follows up to the
    divider. *)
Definition show_candidate (df_calendar : list entry) (today : date)
  (item : guide_record) : W unit :=
  let cat_name := category_name item in
  let cal_name := calendar_name item in
  show st_container ;;;
  show (st_markdown (candidate_text cat_name)) ;;;
  match df_calendar with
  | _ :: _ =>
    found <- wlift (matches cal_name today df_calendar) ;;
    match found with
    | next_pickup :: _ => show (st_success (pickup_text next_pickup))
    | [] => wret tt
    end
  | [] => wret tt
  end ;;;
  show (st_expander (lit "詳しい出し方を見る")
          [st_markdown (page_link item); st_text (preview (details item))]) ;;;
  show st_divider.

(** The loop of the search, which counts in [found_count]; [clock i] is
    the date the clock shows while the record at position [i] of the
    guide is handled. *)
Fixpoint search_loop (query : str) (df_calendar : list entry) (clock : nat -> date)
  (i : nat) (found_count : Z) (guide_list : list guide_record) : W Z :=
  match guide_list with
  | [] => wret found_count
  | item :: guide_list' =>
    if hit query item then
      show_candidate df_calendar (clock i) item ;;;
      search_loop query df_calendar clock (S i) (found_count + 1) guide_list'
    else search_loop query df_calendar clock (S i) found_count guide_list'
  end.

(** The block [with tab2:]; [query] is what [st.text_input] returns, the
    text typed into the search field. *)
Definition main_tab2 (query : str) (df_calendar : list entry)
  (guide_list : list guide_record) (clock : nat -> date) : W unit :=
  show (st_header (lit "🔍 ごみ分別検索")) ;;;
  show (st_text_input (lit "検索キーワード (例: 電池, フライパン)") []) ;;;
  if truthy query then
    found_count <- search_loop query df_calendar clock 0 0 guide_list ;;
    if found_count =? 0 then show (st_warning (not_found_text query)) else wret tt
  else
    show (st_info (lit "キーワードを入力すると結果が表示されます。")) ;;;
    show (st_expander (lit "カテゴリ一覧")
            (map (fun item => st_write (category_line item)) guide_list)).

End Display.

(** What Python guarantees of the enumeration of a set of labels. *)
Definition label_set_contract (label_set : list str -> list str) : Prop :=
  forall l, NoDup (label_set l) /\ (forall x, In x (label_set l) <-> In x l).

(** Instances for the display. *)
Definition label_set_nodup (l : list str) : list str := nodup str_eq_dec l.

(** The search of patterns without special characters; a pattern with
    an opening bracket is taken here as one that [re] refuses. *)
Definition regex_literal (pat text : str) : option bool :=
  if existsb (N.eqb 91) pat then None else Some (contains pat text).

(** * Sample data for the instances *)

(** The table of a page of April 2024 with nine collection days in two
    rows. *)
Definition nine_days : list (list str) :=
  [[lit "1燃やすごみ"; lit "2ペットボトル"; lit "3資源A"; lit "4燃やすごみ";
    lit "5その他プラ"; lit "6燃やすごみ"; lit "7資源A"];
   [lit "8資源B"; lit "9燃やすごみ"]].

Definition web_nine_days : list str -> str -> http_result :=
  serve [(get_url_by_date 2024 4, calendar_page nine_days)].

(** A web on which nothing is reachable. *)
Definition web_down : list str -> str -> http_result := serve [].

(** The calendar fetched from [web_nine_days] on 1 April 2024. *)
Definition sample_table : list entry :=
  Eval vm_compute in
    match fst (run (fetch_calendar_data digit_value_jp default_max_str_digits
                      web_nine_days sort_stable (mkdate 2024 4 1))) with
    | Ok table => table
    | Raise _ => []
    end.

(** The links of the index page of [web_guide_three]. *)
Definition three_links : list (option str * str) :=
  [(Some (lit "https://nishi/a"), lit "もやすごみ");
   (Some (lit "https://nishi/b"), lit "資源A");
   (None, lit "資源B");
   (Some (lit "https://nishi/top"), lit "トップ");
   (Some (lit "https://nishi/c"), lit "ペットボトル")].

Definition three_targets : list (str * str) :=
  [(lit "もやすごみ", lit "https://nishi/a");
   (lit "資源A", lit "https://nishi/b");
   (lit "ペットボトル", lit "https://nishi/c")].

(** The guide fetched from [web_guide_three]. *)
Definition sample_guide : list guide_record :=
  Eval vm_compute in
    match fst (run (fetch_detailed_guide web_guide_three urljoin_absolute
                      list_set_nodup)) with
    | Ok guide => guide
    | Raise _ => []
    end.

(** A record whose calendar name is no regular expression. *)
Definition bracket_record : guide_record :=
  mkguide (lit "危険[ごみ") (lit "危険[ごみ") (lit "スプレー缶") (lit "https://nishi/d").

(** A clock that shows 1 April 2024 throughout. *)
Definition first_of_april (i : nat) : date := mkdate 2024 4 1.

(** * The category mapper *)

Lemma first_match_none_passthrough (t : str) :
  first_match mapping t = None -> map_guide_to_calendar t = t.
Proof.
  intros H. unfold map_guide_to_calendar. now rewrite H.
Qed.

Lemma first_match_in (items : list (str * str)) (t v : str) :
  first_match items t = Some v ->
  exists k, In (k, v) items /\ contains k t = true.
Proof.
  induction items as [| [k w] items IH]; cbn [first_match]; intros H.
  - discriminate.
  - destruct (contains k t) eqn:E.
    + injection H as ->. exists k. split; [now left | exact E].
    + destruct (IH H) as (k' & Hin & Hc). exists k'. split; [now right | exact Hc].
Qed.

(** Every label of the table is mapped to itself. *)
Lemma labels_are_fixed_points :
  Forall (fun kv => map_guide_to_calendar (snd kv) = snd kv) mapping.
Proof.
  unfold mapping. repeat constructor.
Qed.

(** C2, as the code has it: the key of the first entry is the hiragana
    spelling "もやすごみ", so a title with that spelling is mapped to
    "燃やすごみ"; the title "燃やすごみの日" of the specification contains
    no key of the table and comes back unchanged, as "unknown category"
    does. *)
Theorem map_guide_to_calendar_examples :
  map_guide_to_calendar (lit "もやすごみの日") = lit "燃やすごみ"
  /\ forallb (fun kv => negb (contains (fst kv) (lit "燃やすごみの日"))) mapping = true
  /\ map_guide_to_calendar (lit "燃やすごみの日") = lit "燃やすごみの日"
  /\ forallb (fun kv => negb (contains (fst kv) (lit "unknown category"))) mapping = true
  /\ map_guide_to_calendar (lit "unknown category") = lit "unknown category".
Proof.
  repeat split; vm_compute; reflexivity.
Qed.

(** C2 as stated fails: the mapper does not return "燃やすごみ" for
    "燃やすごみの日". *)
Lemma map_guide_to_calendar_kanji_title :
  str_eqb (map_guide_to_calendar (lit "燃やすごみの日")) (lit "燃やすごみ") = false.
Proof.
  vm_compute. reflexivity.
Qed.

(** C10: the mapper is idempotent. It returns either a label of the
    table, and each label is mapped to itself, or its argument when no key
    occurs in it, and then the second application finds no key either. *)
Theorem map_guide_to_calendar_idempotent (t : str) :
  map_guide_to_calendar (map_guide_to_calendar t) = map_guide_to_calendar t.
Proof.
  destruct (first_match mapping t) as [v |] eqn:E.
  - unfold map_guide_to_calendar at 2 3. rewrite E.
    apply first_match_in in E. destruct E as (k & Hin & _).
    pose proof labels_are_fixed_points as F.
    rewrite Forall_forall in F. exact (F (k, v) Hin).
  - rewrite (first_match_none_passthrough t E).
    exact (first_match_none_passthrough t E).
Qed.

(** * The address of a month's calendar *)

Lemma digits_of_uint_inj (u v : Decimal.uint) :
  digits_of_uint u = digits_of_uint v -> u = v.
Proof.
  revert v. induction u; intros v H; destruct v; cbn in H;
    try discriminate; try reflexivity;
    injection H as H; f_equal; auto.
Qed.

Lemma digits_of_uint_ascii (u : Decimal.uint) :
  Forall (fun c => is_ascii_digit c = true) (digits_of_uint u).
Proof.
  induction u; cbn; constructor; auto.
Qed.

(** A run of digits ends at the first character that is no digit. *)
Lemma digits_split (ds ds' r r' : str) (c c' : char) :
  Forall (fun x => is_ascii_digit x = true) ds ->
  Forall (fun x => is_ascii_digit x = true) ds' ->
  is_ascii_digit c = false -> is_ascii_digit c' = false ->
  ds ++ c :: r = ds' ++ c' :: r' ->
  ds = ds' /\ c :: r = c' :: r'.
Proof.
  intros Hd. revert ds'. induction Hd as [| x ds Hx Hd IH]; intros ds' Hd' Hc Hc' E.
  - destruct Hd' as [| x' ds' Hx' Hd'].
    + split; [reflexivity | exact E].
    + cbn in E. injection E as -> _. congruence.
  - destruct Hd' as [| x' ds' Hx' Hd'].
    + cbn in E. injection E as -> _. congruence.
    + cbn in E. injection E as -> E.
      destruct (IH ds' Hd' Hc Hc' E) as [-> E']. split; [reflexivity | exact E'].
Qed.

Lemma to_int_normal (z : Z) : Decimal.norm (Z.to_int z) = Z.to_int z.
Proof.
  rewrite <- DecimalZ.to_of. now rewrite DecimalZ.of_to.
Qed.

Lemma to_int_pos_nonnil (z : Z) (u : Decimal.uint) :
  Z.to_int z = Decimal.Pos u -> u <> Decimal.Nil.
Proof.
  intros H ->. pose proof (to_int_normal z) as N. rewrite H in N.
  cbn in N. discriminate.
Qed.

Lemma digits_of_uint_nil (u : Decimal.uint) :
  digits_of_uint u = [] -> u = Decimal.Nil.
Proof.
  intros H. apply digits_of_uint_inj. exact H.
Qed.

(** [str(y)] followed by a hyphen determines [y] and what follows. *)
Lemma str_of_int_hyphen_inj (y y' : Z) (r r' : str) :
  str_of_int y ++ c_minus :: r = str_of_int y' ++ c_minus :: r' ->
  y = y' /\ r = r'.
Proof.
  unfold str_of_int.
  destruct (Z.to_int y) as [u | u] eqn:Ey; destruct (Z.to_int y') as [u' | u'] eqn:Ey';
    intros E.
  - apply digits_split in E; auto using digits_of_uint_ascii.
    destruct E as [Eu Er]. apply digits_of_uint_inj in Eu. subst u'.
    split; [apply DecimalZ.to_int_inj; congruence | now injection Er].
  - exfalso.
    apply (digits_split (digits_of_uint u) [] r
             (digits_of_uint u' ++ c_minus :: r') c_minus c_minus) in E;
      auto using digits_of_uint_ascii.
    destruct E as [Eu _]. apply digits_of_uint_nil in Eu.
    exact (to_int_pos_nonnil y u Ey Eu).
  - exfalso. symmetry in E.
    apply (digits_split (digits_of_uint u') [] r'
             (digits_of_uint u ++ c_minus :: r) c_minus c_minus) in E;
      auto using digits_of_uint_ascii.
    destruct E as [Eu _]. apply digits_of_uint_nil in Eu.
    exact (to_int_pos_nonnil y' u' Ey' Eu).
  - cbn in E. injection E as E.
    apply digits_split in E; auto using digits_of_uint_ascii.
    destruct E as [Eu Er]. apply digits_of_uint_inj in Eu. subst u'.
    split; [apply DecimalZ.to_int_inj; congruence | now injection Er].
Qed.

(** Padding with zeros is padding the numeral with leading [D0]s, which
    does not change its value. *)
Lemma zfill_digits (w : nat) (u : Decimal.uint) :
  zfill w (digits_of_uint u)
  = digits_of_uint (Nat.iter (w - List.length (digits_of_uint u)) Decimal.D0 u).
Proof.
  unfold zfill. induction (w - List.length (digits_of_uint u))%nat as [| k IH].
  - reflexivity.
  - cbn. now rewrite IH.
Qed.

Lemma of_uint_leading_zeros (k : nat) (u : Decimal.uint) :
  Z.of_uint (Nat.iter k Decimal.D0 u) = Z.of_uint u.
Proof.
  induction k as [| k IH]; [reflexivity | exact IH].
Qed.

Lemma zfill_digits_inj (w : nat) (u u' : Decimal.uint) :
  zfill w (digits_of_uint u) = zfill w (digits_of_uint u') ->
  Z.of_uint u = Z.of_uint u'.
Proof.
  rewrite !zfill_digits. intros E. apply digits_of_uint_inj in E.
  apply (f_equal Z.of_uint) in E.
  now rewrite !of_uint_leading_zeros in E.
Qed.

Lemma zfill_ascii (w : nat) (ds : str) :
  Forall (fun c => is_ascii_digit c = true) ds ->
  Forall (fun c => is_ascii_digit c = true) (zfill w ds).
Proof.
  intros H. unfold zfill. apply Forall_app. split; [| exact H].
  induction (w - List.length ds)%nat; cbn; constructor; auto.
Qed.

Lemma format_0d_inj (m m' : Z) : format_0d 2 m = format_0d 2 m' -> m = m'.
Proof.
  unfold format_0d.
  destruct (Z.to_int m) as [u | u] eqn:Em; destruct (Z.to_int m') as [u' | u'] eqn:Em';
    intros E.
  - apply zfill_digits_inj in E.
    rewrite <- (DecimalZ.of_to m), <- (DecimalZ.of_to m'), Em, Em'. exact E.
  - exfalso. pose proof (zfill_ascii 2 _ (digits_of_uint_ascii u)) as F.
    rewrite E in F. inversion F. discriminate.
  - exfalso. pose proof (zfill_ascii 2 _ (digits_of_uint_ascii u')) as F.
    rewrite <- E in F. inversion F. discriminate.
  - injection E as E. apply zfill_digits_inj in E.
    rewrite <- (DecimalZ.of_to m), <- (DecimalZ.of_to m'), Em, Em'.
    cbn. now rewrite E.
Qed.

Lemma get_url_by_date_inj (y m y' m' : Z) :
  get_url_by_date y m = get_url_by_date y' m' -> y = y' /\ m = m'.
Proof.
  unfold get_url_by_date. intros E.
  apply app_inv_head in E. apply app_inv_tail in E.
  apply str_of_int_hyphen_inj in E. destruct E as [-> E].
  split; [reflexivity | exact (format_0d_inj m m' E)].
Qed.

Lemma str_eqb_eq (s t : str) : str_eqb s t = true -> s = t.
Proof.
  unfold str_eqb. destruct (str_eq_dec s t); [auto | discriminate].
Qed.

Lemma startswith_app (p b : str) : startswith p (p ++ b) = true.
Proof.
  induction p as [| c p IH]; cbn; [reflexivity |].
  now rewrite N.eqb_refl, IH.
Qed.

Lemma contains_app (p a b : str) : contains p (a ++ p ++ b) = true.
Proof.
  induction a as [| c a IH].
  - cbn [app]. destruct (p ++ b) eqn:E; cbn [contains];
      rewrite <- E, startswith_app; reflexivity.
  - cbn [app contains]. rewrite IH. apply orb_true_r.
Qed.

Lemma to_int_nonneg (m : Z) : 0 <= m -> exists u, Z.to_int m = Decimal.Pos u.
Proof.
  destruct m; cbn; intros H; eauto. lia.
Qed.

(** The month of a date takes two digits, the first a zero below ten. *)
Lemma format_0d_two_digits (m : Z) :
  0 <= m <= 99 -> format_0d 2 m = [digit_char (m / 10); digit_char (m mod 10)].
Proof.
  intros H.
  assert (T : forallb (fun n => str_eqb (format_0d 2 (Z.of_nat n))
                                  [digit_char (Z.of_nat n / 10);
                                   digit_char (Z.of_nat n mod 10)])
                      (seq 0 100) = true) by (vm_compute; reflexivity).
  rewrite forallb_forall in T.
  specialize (T (Z.to_nat m)). rewrite Z2Nat.id in T by lia.
  apply str_eqb_eq, T, in_seq. lia.
Qed.

(** A year from 1000 to 9999 takes four digits. *)
Lemma str_of_int_four_digits (y : Z) :
  1000 <= y <= 9999 -> List.length (str_of_int y) = 4%nat.
Proof.
  intros H.
  assert (T : forallb (fun n => Nat.eqb (List.length (str_of_int (1000 + Z.of_nat n))) 4)
                      (seq 0 (Z.to_nat 9000)) = true) by (vm_compute; reflexivity).
  rewrite forallb_forall in T.
  specialize (T (Z.to_nat (y - 1000))).
  replace (1000 + Z.of_nat (Z.to_nat (y - 1000))) with y in T by lia.
  apply Nat.eqb_eq, T, in_seq. lia.
Qed.

Lemma format_0d_nonneg (w : nat) (m : Z) :
  0 <= m -> format_0d w m = zfill w (str_of_int m).
Proof.
  intros H. destruct (to_int_nonneg m H) as [u E].
  unfold format_0d, str_of_int. now rewrite E.
Qed.

Lemma zfill_long_enough (w : nat) (ds : str) :
  (w <= List.length ds)%nat -> zfill w ds = ds.
Proof.
  intros H. unfold zfill. replace (w - List.length ds)%nat with 0%nat by lia.
  reflexivity.
Qed.

(** A year from 1000 to 9999 prints as its four decimal digits. *)
Lemma str_of_int_year_digits (y : Z) :
  1000 <= y <= 9999 ->
  str_of_int y
  = [digit_char (y / 1000); digit_char (y / 100 mod 10);
     digit_char (y / 10 mod 10); digit_char (y mod 10)].
Proof.
  intros H.
  assert (T : forallb (fun n =>
                         let y := 1000 + Z.of_nat n in
                         str_eqb (str_of_int y)
                                 [digit_char (y / 1000); digit_char (y / 100 mod 10);
                                  digit_char (y / 10 mod 10); digit_char (y mod 10)])
                      (seq 0 (Z.to_nat 9000)) = true) by (vm_compute; reflexivity).
  rewrite forallb_forall in T.
  specialize (T (Z.to_nat (y - 1000))). cbv zeta in T.
  replace (1000 + Z.of_nat (Z.to_nat (y - 1000))) with y in T by lia.
  apply str_eqb_eq, T, in_seq. lia.
Qed.

(** C7: over the years and months the callers pass, a year of four
    digits and a month from 1 to 12, the address of a month determines
    the year and the month, and it holds the zero-padded YYYY-MM between
    the fixed parts: the four digits of the year, a hyphen, the two
    digits of the month, the first a zero below ten (month 3 gives
    "-03"). *)
Theorem get_url_by_date_injective_and_padded (y m y' m' : Z) :
  1000 <= y <= 9999 -> 1 <= m <= 12 ->
  1000 <= y' <= 9999 -> 1 <= m' <= 12 ->
  (get_url_by_date y m = get_url_by_date y' m' <-> y = y' /\ m = m')
  /\ get_url_by_date y m = url_prefix ++ iso_year_month y m ++ url_suffix
  /\ iso_year_month y m
     = [digit_char (y / 1000); digit_char (y / 100 mod 10);
        digit_char (y / 10 mod 10); digit_char (y mod 10);
        c_minus; digit_char (m / 10); digit_char (m mod 10)]
  /\ contains (iso_year_month y m) (get_url_by_date y m) = true
  /\ (m = 3 -> contains (lit "-03") (get_url_by_date y m) = true).
Proof.
  intros Hy Hm Hy' Hm'.
  assert (I : iso_year_month y m
              = [digit_char (y / 1000); digit_char (y / 100 mod 10);
                 digit_char (y / 10 mod 10); digit_char (y mod 10);
                 c_minus; digit_char (m / 10); digit_char (m mod 10)]).
  { unfold iso_year_month.
    rewrite <- (format_0d_nonneg 2 m) by lia.
    rewrite (format_0d_two_digits m) by lia.
    rewrite (zfill_long_enough 4 (str_of_int y))
      by (rewrite (str_of_int_four_digits y Hy); lia).
    rewrite (str_of_int_year_digits y Hy). reflexivity. }
  assert (U : get_url_by_date y m = url_prefix ++ iso_year_month y m ++ url_suffix).
  { unfold get_url_by_date, iso_year_month.
    rewrite (format_0d_nonneg 2 m) by lia.
    rewrite (zfill_long_enough 4 (str_of_int y)); [reflexivity |].
    rewrite (str_of_int_four_digits y Hy). lia. }
  split; [| split; [exact U | split; [exact I | split]]].
  - split; [apply get_url_by_date_inj | now intros [-> ->]].
  - rewrite U. apply contains_app.
  - intros ->. rewrite U, I.
    change [digit_char (y / 1000); digit_char (y / 100 mod 10);
            digit_char (y / 10 mod 10); digit_char (y mod 10);
            c_minus; digit_char (3 / 10); digit_char (3 mod 10)]
      with ([digit_char (y / 1000); digit_char (y / 100 mod 10);
             digit_char (y / 10 mod 10); digit_char (y mod 10)] ++ lit "-03").
    rewrite <- !app_assoc, app_assoc. apply contains_app.
Qed.

(** * Dates *)

Lemma date_new_ok (y m d : Z) (dt : date) :
  date_new y m d = Ok dt -> dt = mkdate y m d.
Proof.
  unfold date_new.
  repeat match goal with
         | |- context [if ?b then _ else _] => destruct b
         end; congruence.
Qed.

Lemma weekday_range (dt : date) : 0 <= weekday dt < 7.
Proof.
  unfold weekday. apply Z.mod_pos_bound. lia.
Qed.

(** On a date of the calendar the weekday label is one of the seven. *)
Lemma get_weekday_str_valid (y m d : Z) (dt : date) :
  date_new y m d = Ok dt ->
  exists w, get_weekday_str y m d = Ok w /\ In w weekdays.
Proof.
  intros H. unfold get_weekday_str. rewrite H.
  pose proof (weekday_range dt) as R.
  assert (L : (Z.to_nat (weekday dt) < 7)%nat) by lia.
  destruct (Z.to_nat (weekday dt)) as [| [| [| [| [| [| [| n]]]]]]];
    try lia; cbn; eexists; (split; [reflexivity |]); cbn; auto 10.
Qed.

Lemma weekdays_single_char :
  Forall (fun w => List.length w = 1%nat) weekdays.
Proof.
  unfold weekdays. repeat constructor.
Qed.

Ltac bool_to_Z :=
  repeat rewrite ?orb_true_iff, ?andb_true_iff, ?orb_false_iff, ?andb_false_iff,
    ?Z.ltb_lt, ?Z.eqb_eq, ?Z.leb_le, ?Z.ltb_ge, ?Z.eqb_neq, ?Z.leb_gt in *.

Lemma date_leb_trans (a b c : date) :
  date_leb a b = true -> date_leb b c = true -> date_leb a c = true.
Proof.
  unfold date_leb. bool_to_Z. lia.
Qed.

Lemma date_leb_total (a b : date) :
  date_leb a b = false -> date_leb b a = true.
Proof.
  unfold date_leb. bool_to_Z. lia.
Qed.

Lemma entry_le_trans : Relations_1.Transitive entry_le.
Proof.
  intros a b c. unfold entry_le. apply date_leb_trans.
Qed.

(** * Stores *)

Lemma extends_refl {R} (P : R -> Prop) (s : store R) : extends_with P s s.
Proof.
  split; [reflexivity |]. exists []. split; [now rewrite app_nil_r | constructor].
Qed.

Lemma extends_trans {R} (P : R -> Prop) (s1 s2 s3 : store R) :
  extends_with P s1 s2 -> extends_with P s2 s3 -> extends_with P s1 s3.
Proof.
  intros (Hr & n1 & E1 & F1) (Hr' & n2 & E2 & F2). split; [congruence |].
  exists (n1 ++ n2). split.
  - now rewrite E2, E1, app_assoc.
  - apply Forall_app. now split.
Qed.

Lemma for_each_extends {R A} (P : R -> Prop) (body : A -> M R unit) (xs : list A) :
  (forall x s, extends_with P s (snd (body x s))) ->
  forall s, extends_with P s (snd (for_each xs body s)).
Proof.
  intros Hb. induction xs as [| x xs IH]; intros s; cbn.
  - apply extends_refl.
  - unfold bind. pose proof (Hb x s) as H.
    destruct (body x s) as [[u | e] s']; cbn in H |- *.
    + exact (extends_trans P _ _ _ H (IH s')).
    + exact H.
Qed.

(** * The calendar *)

Section CalendarFacts.

Variable digit_value : char -> option Z.
Variable int_max_str_digits : nat.
Variable http : list str -> str -> http_result.
Variable sort_values : list entry -> list entry.

Local Abbreviation parse_cell' := (parse_cell digit_value int_max_str_digits).
Local Abbreviation fetch_month' := (fetch_month digit_value int_max_str_digits http).
Local Abbreviation scrape_calendar' := (scrape_calendar digit_value int_max_str_digits http).
Local Abbreviation fetch_calendar_data' :=
  (fetch_calendar_data digit_value int_max_str_digits http sort_values).

Ltac unchanged := cbn; apply extends_refl.

(** A cell adds at most one row, and only with a validated date that is
    not in the past. *)
Lemma parse_cell_extends (now : date) (y m : Z) (text : str) (s : store entry) :
  extends_with (emitted now) s (snd (parse_cell' now y m text s)).
Proof.
  unfold parse_cell.
  destruct (truthy text); [| unchanged].
  destruct (re_match digit_value text) as [[g1 g2] |]; [| unchanged].
  unfold bind, lift.
  destruct (py_int digit_value int_max_str_digits g1) as [d | e]; [| unchanged].
  destruct (date_new y m d) as [dt | e] eqn:Ed; [| unchanged].
  destruct (date_geb dt now) eqn:Eg; [| unchanged].
  destruct (get_weekday_str_valid y m d dt Ed) as (w & Ew & Hw).
  rewrite Ew. cbn. split; [reflexivity |].
  eexists. split; [reflexivity |].
  constructor; [| constructor].
  pose proof (date_new_ok y m d dt Ed) as ->.
  unfold emitted. cbn. auto.
Qed.

(** A month sends one request, never raises, and adds validated rows. *)
Lemma fetch_month_spec (now : date) (ym : Z * Z) (s : store entry) :
  exists s',
    fetch_month' now ym s = (Ok tt, s')
    /\ requests s' = requests s ++ [get_url_by_date (fst ym) (snd ym)]
    /\ exists new, rows s' = rows s ++ new /\ Forall (emitted now) new.
Proof.
  destruct ym as [y m]. unfold fetch_month, try_except, bind, requests_get.
  cbn [fst snd].
  set (s1 := mkstore (requests s ++ [get_url_by_date y m]) (rows s)).
  assert (U : exists new, rows s1 = rows s ++ new /\ Forall (emitted now) new).
  { exists []. split; [now rewrite app_nil_r | constructor]. }
  destruct (http (requests s) (get_url_by_date y m)) as [e | r].
  - exists s1. auto.
  - destruct (status_code r =? 200); [| exists s1; auto].
    destruct (first_table (soup r)) as [table |]; [| exists s1; auto].
    pose proof (for_each_extends (emitted now)
                  (fun cols => for_each cols (parse_cell' now y m)) table
                  (fun cols s0 =>
                     for_each_extends (emitted now) (parse_cell' now y m) cols
                       (fun text s2 => parse_cell_extends now y m text s2) s0)
                  s1) as H.
    destruct (for_each table _ s1) as [[[] | e] s2]; cbn in H |- *;
      destruct H as (Hr & new & Hn & Hf);
      exists s2; (split; [reflexivity |]); (split; [exact Hr |]);
      exists new; split; auto.
Qed.

(** The two months are fetched one after the other. *)
Lemma scrape_calendar_spec (now : date) :
  exists s,
    run (scrape_calendar' now) = (Ok tt, s)
    /\ requests s = map (fun ym => get_url_by_date (fst ym) (snd ym)) (years_months now)
    /\ Forall (emitted now) (rows s).
Proof.
  unfold run, scrape_calendar, years_months.
  cbn [for_each map]. unfold bind.
  destruct (fetch_month_spec now (year now, month now) empty_store)
    as (s1 & E1 & R1 & n1 & N1 & F1).
  rewrite E1.
  destruct (fetch_month_spec now
              (if month now =? 12 then (year now + 1, 1) else (year now, month now + 1))
              s1)
    as (s2 & E2 & R2 & n2 & N2 & F2).
  rewrite E2. cbn. exists s2. split; [reflexivity |]. split.
  - rewrite R2, R1. reflexivity.
  - rewrite N2, N1. cbn. apply Forall_app. now split.
Qed.

Lemma fetch_calendar_data_unfold (now : date) (s : store entry) :
  run (scrape_calendar' now) = (Ok tt, s) ->
  run (fetch_calendar_data' now)
  = (Ok (match rows s with [] => [] | _ :: _ => sort_values (rows s) end), s).
Proof.
  unfold run, fetch_calendar_data, bind, get_rows. intros ->.
  destruct (rows s); reflexivity.
Qed.

(** C3, as the code has it: the table holds only rows dated today or
    later, in non-decreasing order of date, and its rows are the scraped
    rows, each as often as it was scraped. Nothing is promised about the
    order of rows of equal date: that is left to pandas' default sort. *)
Theorem fetch_calendar_data_filtered_sorted (now : date) :
  sort_contract sort_values ->
  exists table s,
    run (fetch_calendar_data' now) = (Ok table, s)
    /\ Forall (fun e => date_geb (date_obj e) now = true) table
    /\ StronglySorted entry_le table
    /\ Permutation (rows (snd (run (scrape_calendar' now)))) table.
Proof.
  intros Hsort.
  destruct (scrape_calendar_spec now) as (s & E & _ & F).
  rewrite (fetch_calendar_data_unfold now s E), E. cbn [snd].
  eexists. exists s. split; [reflexivity |].
  destruct (rows s) as [| e l] eqn:Er.
  - repeat split; constructor.
  - destruct (Hsort (e :: l)) as [Hp Hs]. repeat split.
    + eapply Permutation_Forall; [exact Hp |].
      eapply Forall_impl; [| exact F]. intros a Ha. apply Ha.
    + apply Sorted_StronglySorted; [exact entry_le_trans | exact Hs].
    + exact Hp.
Qed.

(** C4: whatever the web answers, the requests sent are the addresses of
    two months, the month of the reference date and the month after it;
    after December comes January of the next year. *)
Theorem fetch_calendar_data_queries_two_months (now : date) :
  1 <= month now <= 12 ->
  exists y' m',
    requests (snd (run (fetch_calendar_data' now)))
    = [get_url_by_date (year now) (month now); get_url_by_date y' m']
    /\ 1 <= m' <= 12
    /\ 12 * y' + m' = 12 * year now + month now + 1
    /\ (month now = 12 -> y' = year now + 1 /\ m' = 1).
Proof.
  intros Hm.
  destruct (scrape_calendar_spec now) as (s & E & R & _).
  rewrite (fetch_calendar_data_unfold now s E). cbn [snd].
  rewrite R. unfold years_months. cbn [map fst snd].
  destruct (month now =? 12) eqn:E12.
  - apply Z.eqb_eq in E12. exists (year now + 1), 1. cbn [fst snd].
    repeat split; lia.
  - apply Z.eqb_neq in E12. exists (year now), (month now + 1). cbn [fst snd].
    repeat split; lia.
Qed.

(** C8: every row of the table carries one of the seven weekday labels,
    never the empty string, because its date passed the constructor of
    [datetime.date] before the row was built. *)
Theorem fetch_calendar_data_weekday_labels (now : date) :
  (forall l, Permutation l (sort_values l)) ->
  exists table s,
    run (fetch_calendar_data' now) = (Ok table, s)
    /\ Forall (fun e =>
                 let d := date_obj e in
                 date_new (year d) (month d) (day d) = Ok d
                 /\ In (youbi e) weekdays
                 /\ youbi e <> []
                 /\ List.length (youbi e) = 1%nat) table.
Proof.
  intros Hperm.
  destruct (scrape_calendar_spec now) as (s & E & _ & F).
  rewrite (fetch_calendar_data_unfold now s E).
  eexists. exists s. split; [reflexivity |].
  assert (G : Forall (fun e =>
                 let d := date_obj e in
                 date_new (year d) (month d) (day d) = Ok d
                 /\ In (youbi e) weekdays
                 /\ youbi e <> []
                 /\ List.length (youbi e) = 1%nat) (rows s)).
  { eapply Forall_impl; [| exact F]. intros a (Hd & _ & _ & Hin).
    pose proof weekdays_single_char as W. rewrite Forall_forall in W.
    specialize (W _ Hin). cbn. repeat split; auto.
    intros Hnil. rewrite Hnil in W. discriminate. }
  destruct (rows s) as [| e l]; [constructor |].
  eapply Permutation_Forall; [apply Hperm | exact G].
Qed.

End CalendarFacts.

(** * The guide *)

Lemma nodup_all_equal {A} (l : list A) (p : A) :
  NoDup l -> In p l -> (forall q, In q l -> q = p) -> l = [p].
Proof.
  intros Hn Hin Hall. destruct l as [| a l]; [destruct Hin |].
  pose proof (Hall a (or_introl eq_refl)) as ->.
  destruct l as [| b l]; [reflexivity |].
  pose proof (Hall b (or_intror (or_introl eq_refl))) as ->.
  inversion Hn as [| ? ? Hnotin _]. exfalso. apply Hnotin. now left.
Qed.

Section GuideFacts.

Variable http : list str -> str -> http_result.
Variable urljoin : str -> str -> result str.
Variable list_set : list (str * str) -> list (str * str).

Local Abbreviation fetch_page' := (fetch_page http).
Local Abbreviation fetch_detailed_guide' := (fetch_detailed_guide http urljoin list_set).

(** A linked page is requested once; the loop goes on whatever happens. *)
Lemma fetch_page_spec (target : str * str) (s : store guide_record) :
  fetch_page' target s
  = (Ok tt,
     mkstore (requests s ++ [snd target])
             (rows s ++ page_record (http (requests s) (snd target)) target)).
Proof.
  destruct target as [title link_url].
  unfold fetch_page, try_except, bind, requests_get, page_record. cbn [fst snd].
  destruct (http (requests s) link_url) as [e | r].
  - cbn. now rewrite app_nil_r.
  - destruct (content_area (soup r)); cbn; [reflexivity | now rewrite app_nil_r].
Qed.

Lemma page_record_key (answer : http_result) (target : str * str) (r : guide_record) :
  In r (page_record answer target) -> record_key r = target.
Proof.
  unfold page_record. destruct answer as [e | resp]; [intros [] |].
  destruct (content_area (soup resp)); [| intros []].
  intros [<- | []]. destruct target. reflexivity.
Qed.

Lemma crawl_spec (tasks : list (str * str)) (s : store guide_record) :
  exists s',
    for_each tasks fetch_page' s = (Ok tt, s')
    /\ requests s' = requests s ++ map snd tasks
    /\ exists new,
         rows s' = rows s ++ new
         /\ incl (map record_key new) tasks
         /\ (NoDup tasks -> NoDup (map record_key new)).
Proof.
  revert s. induction tasks as [| target tasks IH]; intros s.
  - exists s. cbn. rewrite app_nil_r. split; [reflexivity |]. split; [reflexivity |].
    exists []. rewrite app_nil_r. repeat split; [intros x [] | constructor].
  - cbn [for_each]. unfold bind. rewrite fetch_page_spec.
    set (here := page_record (http (requests s) (snd target)) target).
    destruct (IH (mkstore (requests s ++ [snd target]) (rows s ++ here)))
      as (s' & E & R & new & N & I & D).
    exists s'. split; [exact E |]. cbn [requests rows] in R, N. split.
    + rewrite R, <- app_assoc. reflexivity.
    + exists (here ++ new). split; [now rewrite N, app_assoc |].
      assert (K : forall k, In k (map record_key here) -> k = target).
      { intros k Hk. apply in_map_iff in Hk. destruct Hk as (r & <- & Hr).
        exact (page_record_key _ _ _ Hr). }
      split.
      * intros k Hk. rewrite map_app in Hk. apply in_app_or in Hk.
        destruct Hk as [Hk | Hk]; [left; symmetry; exact (K k Hk) | right; exact (I k Hk)].
      * intros Hn. inversion Hn as [| ? ? Hnotin Hn']. subst.
        rewrite map_app.
        assert (Hh : here = [] \/ exists r, here = [r]).
        { unfold here, page_record.
          destruct (http (requests s) (snd target)) as [e | resp]; [now left |].
          destruct (content_area (soup resp)); [right; eauto | now left]. }
        destruct Hh as [-> | [r Hr]]; [exact (D Hn') |].
        rewrite Hr. cbn. constructor; [| exact (D Hn')].
        intros Hin. apply Hnotin. apply I.
        rewrite (K (record_key r)) in Hin; [exact Hin |].
        rewrite Hr. now left.
Qed.

(** C5, as the code has it: each distinct qualifying (text, url) pair is
    requested exactly once, however many anchors carry it, and gives at
    most one record; the (category_name, url) pairs of the records have no
    duplicates. When all qualifying anchors carry the same pair, the
    crawl sends one request for it and returns the one record of that
    page, or none when the page does not arrive or has no content
    region. *)
Theorem fetch_detailed_guide_dedup
  (idx : response) (area : region) (targets : list (str * str)) :
  set_contract list_set ->
  http [] base_url = Responds idx ->
  content_area (soup idx) = Some area ->
  collect_targets urljoin (anchors area) = Ok targets ->
  exists records s,
    run fetch_detailed_guide' = (Ok records, s)
    /\ requests s = base_url :: map snd (list_set targets)
    /\ (forall p, In p targets ->
          count_occ pair_eq_dec (list_set targets) p = 1%nat)
    /\ NoDup (map record_key records)
    /\ incl (map record_key records) targets
    /\ (forall t u,
          In (t, u) targets -> (forall p, In p targets -> p = (t, u)) ->
          requests s = [base_url; u]
          /\ records = page_record (http [base_url] u) (t, u)).
Proof.
  intros Hset Hidx Harea Htargets.
  destruct (Hset targets) as [Hnodup Hmem].
  destruct (crawl_spec (list_set targets) (mkstore [base_url] []))
    as (s' & E & R & new & N & I & D).
  cbn [requests rows app] in R, N.
  exists new, s'. split.
  { unfold run, fetch_detailed_guide, try_except, bind, requests_get, lift, get_rows.
    cbn [empty_store requests rows app]. rewrite Hidx, Harea, Htargets, E.
    now rewrite N. }
  split; [exact R |]. split.
  { intros p Hp. apply NoDup_count_occ'; [exact Hnodup | now apply Hmem]. }
  split; [exact (D Hnodup) |]. split.
  { intros k Hk. apply Hmem, I, Hk. }
  intros t u Hin Hall.
  assert (T : list_set targets = [(t, u)]).
  { apply nodup_all_equal; [exact Hnodup | now apply Hmem |].
    intros q Hq. apply Hall. now apply Hmem. }
  rewrite T in E, R. cbn [for_each map snd] in E, R. unfold bind in E.
  rewrite fetch_page_spec in E. cbn in E. injection E as E.
  split; [exact R |].
  rewrite <- E in N. cbn [rows] in N. exact (eq_sym N).
Qed.

(** The guide never raises: whatever escapes the loop is caught by the
    outer handler, which returns the empty list. *)
Lemma fetch_detailed_guide_total :
  exists guide s, run fetch_detailed_guide' = (Ok guide, s).
Proof.
  unfold run, fetch_detailed_guide, try_except.
  match goal with |- context [bind ?m ?k empty_store] =>
    destruct (bind m k empty_store) as [[g | e] s] end; unfold ret; eauto.
Qed.

End GuideFacts.

(** * No failure is fatal *)

Lemma str_eqb_refl (s : str) : str_eqb s s = true.
Proof.
  unfold str_eqb. destruct (str_eq_dec s s); [reflexivity | contradiction].
Qed.

(** C6: a month whose page has no table adds no row and raises nothing;
    and whatever the web answers, [fetch_calendar_data] and
    [fetch_detailed_guide] return a table and a list, possibly empty, and
    never let an exception out. *)
Theorem acquisition_never_raises
  (digit_value : char -> option Z) (int_max_str_digits : nat)
  (http : list str -> str -> http_result)
  (sort_values : list entry -> list entry)
  (urljoin : str -> str -> result str)
  (list_set : list (str * str) -> list (str * str)) :
  (forall now y m status dm dc s,
      fetch_month digit_value int_max_str_digits
        (answering (get_url_by_date y m)
                   (mkresponse status (mkdocument None dm dc)) http)
        now (y, m) s
      = (Ok tt, mkstore (requests s ++ [get_url_by_date y m]) (rows s)))
  /\ (forall now, exists table s,
        run (fetch_calendar_data digit_value int_max_str_digits http sort_values now)
        = (Ok table, s))
  /\ (exists guide s,
        run (fetch_detailed_guide http urljoin list_set) = (Ok guide, s)).
Proof.
  split; [| split].
  - intros now y m status dm dc s.
    unfold fetch_month, try_except, bind, requests_get, answering.
    rewrite str_eqb_refl. cbn.
    destruct (status =? 200); reflexivity.
  - intros now.
    destruct (scrape_calendar_spec digit_value int_max_str_digits http now)
      as (s & E & _).
    rewrite (fetch_calendar_data_unfold _ _ _ sort_values now s E). eauto.
  - apply fetch_detailed_guide_total.
Qed.

(** * The instances meet their contracts *)

Lemma insert_entry_perm (x : entry) (l : list entry) :
  Permutation (x :: l) (insert_entry x l).
Proof.
  induction l as [| y l IH]; cbn; [reflexivity |].
  destruct (date_leb (date_obj x) (date_obj y)); [reflexivity |].
  rewrite perm_swap. now constructor.
Qed.

Lemma insert_entry_sorted (x : entry) (l : list entry) :
  Sorted entry_le l -> Sorted entry_le (insert_entry x l).
Proof.
  induction 1 as [| y l Hs IH Hh]; cbn.
  - repeat constructor.
  - destruct (date_leb (date_obj x) (date_obj y)) eqn:E.
    + constructor; [constructor; assumption | constructor; exact E].
    + constructor; [exact IH |].
      destruct l as [| z l]; cbn.
      * constructor. apply date_leb_total, E.
      * destruct (date_leb (date_obj x) (date_obj z)).
        -- constructor. apply date_leb_total, E.
        -- constructor. inversion Hh. assumption.
Qed.

Lemma sort_stable_contract : sort_contract sort_stable.
Proof.
  intros l. unfold sort_stable. induction l as [| x l [IHp IHs]]; cbn.
  - split; constructor.
  - split.
    + rewrite <- insert_entry_perm. now constructor.
    + now apply insert_entry_sorted.
Qed.

Lemma list_set_nodup_contract : set_contract list_set_nodup.
Proof.
  intros l. unfold list_set_nodup. split; [apply NoDup_nodup |].
  intros p. apply nodup_In.
Qed.

(** * The code on concrete pages *)

Example weekday_of_5_april_2024 :
  get_weekday_str 2024 4 5 = Ok (lit "金").
Proof. reflexivity. Qed.

Example weekday_of_30_february :
  get_weekday_str 2024 2 30 = Ok [].
Proof. reflexivity. Qed.

(** The scenario of the specification: the cell "5燃やすごみ" of April
    2024 gives the row of 5 April, a cell without a leading digit gives
    none. *)
Example cell_with_day_and_label :
  parse_cell digit_value_jp default_max_str_digits (mkdate 2024 4 1) 2024 4
    (lit "5燃やすごみ") empty_store
  = (Ok tt,
     mkstore [] [mkentry (mkdate 2024 4 5) (lit "4/5") (lit "金") (lit "燃やすごみ")]).
Proof. vm_compute. reflexivity. Qed.

Example cell_without_day :
  parse_cell digit_value_jp default_max_str_digits (mkdate 2024 4 1) 2024 4
    (lit "燃やすごみ") empty_store
  = (Ok tt, empty_store).
Proof. vm_compute. reflexivity. Qed.

Example cell_with_fullwidth_day_and_second_line :
  parse_cell digit_value_jp default_max_str_digits (mkdate 2024 4 1) 2024 4
    (lit "１２資源A" ++ c_newline :: lit "午前") empty_store
  = (Ok tt,
     mkstore [] [mkentry (mkdate 2024 4 12) (lit "4/12") (lit "金") (lit "資源A")]).
Proof. vm_compute. reflexivity. Qed.

(** C1, which the code does not meet: on 1 April 2024 the page of April
    holds the cells "1燃やすごみ", "31" and "2ペットボトル". 31 April is
    no date, [datetime.date] raises [ValueError], and the handler around
    the whole month catches it: the row of 1 April stays, the cell of
    2 April is never read. Without the cell "31" both rows are there. *)
Theorem invalid_day_cell_drops_rest_of_month :
  date_new 2024 4 31 = Raise ValueError
  /\ fst (run (scrape_calendar digit_value_jp default_max_str_digits
                 web_april_31 (mkdate 2024 4 1))) = Ok tt
  /\ map (fun e => (date_obj e, gomi_type e))
         (rows (snd (run (scrape_calendar digit_value_jp default_max_str_digits
                            web_april_31 (mkdate 2024 4 1)))))
     = [(mkdate 2024 4 1, lit "燃やすごみ")]
  /\ map (fun e => (date_obj e, gomi_type e))
         (rows (snd (run (scrape_calendar digit_value_jp default_max_str_digits
                            web_april (mkdate 2024 4 1)))))
     = [(mkdate 2024 4 1, lit "燃やすごみ");
        (mkdate 2024 4 2, lit "ペットボトル");
        (mkdate 2024 4 15, [])].
Proof.
  repeat split; vm_compute; reflexivity.
Qed.

(** C9, which the code does not meet: on 1 April 2024 the cell "15"
    holds digits only, they are the day of 15 April, a date not before
    the reference date. Alone on the page of April it gives the row of
    15 April with an empty label. After a cell "31" it gives nothing:
    [datetime.date(2024, 4, 31)] raises [ValueError], the handler around
    the whole month catches it, and the cell "15" is never read. *)
Theorem digits_only_cell_lost_after_invalid_day
  (sort_values : list entry -> list entry) :
  sort_contract sort_values ->
  (Forall (fun c => digit_value_jp c <> None) (lit "15")
   /\ py_int digit_value_jp default_max_str_digits (lit "15") = Ok 15
   /\ date_new 2024 4 15 = Ok (mkdate 2024 4 15)
   /\ date_geb (mkdate 2024 4 15) (mkdate 2024 4 1) = true)
  /\ run (fetch_calendar_data digit_value_jp default_max_str_digits
            web_april_15 sort_values (mkdate 2024 4 1))
     = (Ok [mkentry (mkdate 2024 4 15) (lit "4/15") (lit "月") []],
        mkstore [get_url_by_date 2024 4; get_url_by_date 2024 5]
                [mkentry (mkdate 2024 4 15) (lit "4/15") (lit "月") []])
  /\ date_new 2024 4 31 = Raise ValueError
  /\ run (fetch_calendar_data digit_value_jp default_max_str_digits
            web_april_31_15 sort_values (mkdate 2024 4 1))
     = (Ok [], mkstore [get_url_by_date 2024 4; get_url_by_date 2024 5] []).
Proof.
  intros Hsort. split; [| split; [| split]].
  - split; [repeat constructor; discriminate |].
    repeat split; vm_compute; reflexivity.
  - rewrite (fetch_calendar_data_unfold digit_value_jp default_max_str_digits
               web_april_15 sort_values (mkdate 2024 4 1)
               (mkstore [get_url_by_date 2024 4; get_url_by_date 2024 5]
                        [mkentry (mkdate 2024 4 15) (lit "4/15") (lit "月") []]))
      by (vm_compute; reflexivity).
    cbn [rows].
    destruct (Hsort [mkentry (mkdate 2024 4 15) (lit "4/15") (lit "月") []])
      as [Hp _].
    apply Permutation_length_1_inv in Hp. rewrite Hp. reflexivity.
  - reflexivity.
  - rewrite (fetch_calendar_data_unfold digit_value_jp default_max_str_digits
               web_april_31_15 sort_values (mkdate 2024 4 1)
               (mkstore [get_url_by_date 2024 4; get_url_by_date 2024 5] []))
      by (vm_compute; reflexivity).
    reflexivity.
Qed.

(** On two rows of the same day [npy_aquicksort] only runs its
    insertion sort, which moves no key past an equal one: the rows stay
    in scrape order. *)
Example sort_values_two_on_5th :
  npy_aquicksort [mkdate 2024 4 5; mkdate 2024 4 5] = Some [0; 1]%nat
  /\ fst (run (fetch_calendar_data digit_value_jp default_max_str_digits
                 web_two_on_5th sort_values_pandas (mkdate 2024 4 1)))
     = Ok [mkentry (mkdate 2024 4 5) (lit "4/5") (lit "金") (lit "燃やすごみ");
           mkentry (mkdate 2024 4 5) (lit "4/5") (lit "金") (lit "ペットボトル")].
Proof. split; vm_compute; reflexivity. Qed.

(** C3 as stated fails: [sort_values] is called with pandas' default
    kind, quicksort, which is not stable. On 1 April 2024 the page of
    April holds eighteen cells for the 5th, labelled a to r. A table of
    eighteen rows is the shortest that [npy_aquicksort] partitions: the
    pivot, row 8, goes to position 16, the two scans stop at once on
    every key, all being equal, and swap positions 1 and 15, 2 and 14,
    up to 7 and 9, until they meet at position 8, where the pivot is
    put back; the two halves are then sorted by insertion, which moves
    nothing. The table is sorted by date, and its rows b to p stand in
    the reverse of their scrape order. *)
Lemma fetch_calendar_data_ties_reordered :
  exists scraped table s,
    rows (snd (run (scrape_calendar digit_value_jp default_max_str_digits
                      web_eighteen_on_5th (mkdate 2024 4 1)))) = scraped
    /\ map (fun e => (date_obj e, gomi_type e)) scraped
       = map (fun c => (mkdate 2024 4 5, [c])) (lit "abcdefghijklmnopqr")
    /\ npy_aquicksort (map date_obj scraped)
       = Some [0; 15; 14; 13; 12; 11; 10; 9; 8; 7; 6; 5; 4; 3; 2; 1; 16; 17]%nat
    /\ sort_values_quicksort scraped = Some table
    /\ run (fetch_calendar_data digit_value_jp default_max_str_digits
              web_eighteen_on_5th sort_values_pandas (mkdate 2024 4 1)) = (Ok table, s)
    /\ map (fun e => (date_obj e, gomi_type e)) table
       = map (fun c => (mkdate 2024 4 5, [c])) (lit "aponmlkjihgfedcbqr")
    /\ StronglySorted entry_le table
    /\ Permutation scraped table
    /\ ~ ties_in_scrape_order scraped table.
Proof.
  exists (rows (snd (run (scrape_calendar digit_value_jp default_max_str_digits
                            web_eighteen_on_5th (mkdate 2024 4 1))))).
  exists (sort_values_pandas
            (rows (snd (run (scrape_calendar digit_value_jp default_max_str_digits
                               web_eighteen_on_5th (mkdate 2024 4 1)))))).
  exists (snd (run (scrape_calendar digit_value_jp default_max_str_digits
                      web_eighteen_on_5th (mkdate 2024 4 1)))).
  split; [reflexivity |].
  split; [vm_compute; reflexivity |].
  split; [vm_compute; reflexivity |].
  split; [vm_compute; reflexivity |].
  split; [vm_compute; reflexivity |].
  split; [vm_compute; reflexivity |].
  split; [| split].
  - apply Sorted_StronglySorted; [exact entry_le_trans |].
    match goal with
    | |- Sorted _ ?t => let t' := eval vm_compute in t in change t with t'
    end.
    repeat first [exact eq_refl | constructor].
  - match goal with
    | |- Permutation ?l ?t =>
      let l' := eval vm_compute in l in
      let t' := eval vm_compute in t in
      change (Permutation l' t')
    end.
    apply perm_skip.
    match goal with
    | |- Permutation ?l ?t =>
      let front := eval cbv in (firstn 15 l) in
      let back := eval cbv in (skipn 15 l) in
      change (Permutation (front ++ back) (rev front ++ back))
    end.
    apply Permutation_app_tail, Permutation_rev.
  - intros H. specialize (H (mkdate 2024 4 5)). vm_compute in H. discriminate.
Qed.

(** C5 as stated fails: the index links the same page twice, the page is
    requested once, and as the request fails no record is emitted. *)
Lemma fetch_detailed_guide_page_down :
  set_contract list_set_nodup
  /\ collect_targets urljoin_absolute
       [(Some moyasu_url, moyasu_title); (Some moyasu_url, moyasu_title)]
     = Ok [(moyasu_title, moyasu_url); (moyasu_title, moyasu_url)]
  /\ run (fetch_detailed_guide web_guide_down urljoin_absolute list_set_nodup)
     = (Ok [], mkstore [base_url; moyasu_url] []).
Proof.
  split; [exact list_set_nodup_contract |].
  split; vm_compute; reflexivity.
Qed.

(** * Instances of the theorems *)

Lemma fetch_calendar_data_filtered_sorted_april :
  exists table s,
    run (fetch_calendar_data digit_value_jp default_max_str_digits web_april
           sort_stable (mkdate 2024 4 1)) = (Ok table, s)
    /\ Forall (fun e => date_geb (date_obj e) (mkdate 2024 4 1) = true) table
    /\ StronglySorted entry_le table
    /\ Permutation
         (rows (snd (run (scrape_calendar digit_value_jp default_max_str_digits
                            web_april (mkdate 2024 4 1))))) table.
Proof.
  exact (fetch_calendar_data_filtered_sorted digit_value_jp default_max_str_digits
           web_april sort_stable (mkdate 2024 4 1) sort_stable_contract).
Defined.

Lemma fetch_calendar_data_queries_december :
  exists y' m',
    requests (snd (run (fetch_calendar_data digit_value_jp default_max_str_digits
                          web_april sort_stable (mkdate 2024 12 15))))
    = [get_url_by_date 2024 12; get_url_by_date y' m']
    /\ 1 <= m' <= 12
    /\ 12 * y' + m' = 12 * 2024 + 12 + 1
    /\ (12 = 12 -> y' = 2024 + 1 /\ m' = 1).
Proof.
  apply (fetch_calendar_data_queries_two_months digit_value_jp
           default_max_str_digits web_april sort_stable (mkdate 2024 12 15)).
  cbn. lia.
Defined.

Lemma fetch_calendar_data_weekday_labels_april :
  exists table s,
    run (fetch_calendar_data digit_value_jp default_max_str_digits web_april
           sort_stable (mkdate 2024 4 1)) = (Ok table, s)
    /\ Forall (fun e =>
                 let d := date_obj e in
                 date_new (year d) (month d) (day d) = Ok d
                 /\ In (youbi e) weekdays
                 /\ youbi e <> []
                 /\ List.length (youbi e) = 1%nat) table.
Proof.
  apply (fetch_calendar_data_weekday_labels digit_value_jp default_max_str_digits
           web_april sort_stable (mkdate 2024 4 1)).
  intros l. apply sort_stable_contract.
Defined.

Lemma digits_only_cell_lost_after_invalid_day_stable :
  (Forall (fun c => digit_value_jp c <> None) (lit "15")
   /\ py_int digit_value_jp default_max_str_digits (lit "15") = Ok 15
   /\ date_new 2024 4 15 = Ok (mkdate 2024 4 15)
   /\ date_geb (mkdate 2024 4 15) (mkdate 2024 4 1) = true)
  /\ run (fetch_calendar_data digit_value_jp default_max_str_digits
            web_april_15 sort_stable (mkdate 2024 4 1))
     = (Ok [mkentry (mkdate 2024 4 15) (lit "4/15") (lit "月") []],
        mkstore [get_url_by_date 2024 4; get_url_by_date 2024 5]
                [mkentry (mkdate 2024 4 15) (lit "4/15") (lit "月") []])
  /\ date_new 2024 4 31 = Raise ValueError
  /\ run (fetch_calendar_data digit_value_jp default_max_str_digits
            web_april_31_15 sort_stable (mkdate 2024 4 1))
     = (Ok [], mkstore [get_url_by_date 2024 4; get_url_by_date 2024 5] []).
Proof.
  exact (digits_only_cell_lost_after_invalid_day sort_stable sort_stable_contract).
Defined.

Lemma get_url_by_date_injective_and_padded_april :
  (get_url_by_date 2024 3 = get_url_by_date 2024 4 <-> 2024 = 2024 /\ 3 = 4)
  /\ get_url_by_date 2024 3 = url_prefix ++ iso_year_month 2024 3 ++ url_suffix
  /\ iso_year_month 2024 3
     = [digit_char (2024 / 1000); digit_char (2024 / 100 mod 10);
        digit_char (2024 / 10 mod 10); digit_char (2024 mod 10);
        c_minus; digit_char (3 / 10); digit_char (3 mod 10)]
  /\ contains (iso_year_month 2024 3) (get_url_by_date 2024 3) = true
  /\ (3 = 3 -> contains (lit "-03") (get_url_by_date 2024 3) = true).
Proof.
  apply (get_url_by_date_injective_and_padded 2024 3 2024 4); lia.
Defined.

Lemma fetch_detailed_guide_dedup_twice :
  exists records s,
    run (fetch_detailed_guide web_guide urljoin_absolute list_set_nodup)
    = (Ok records, s)
    /\ requests s
       = base_url
         :: map snd (list_set_nodup [(moyasu_title, moyasu_url); (moyasu_title, moyasu_url)])
    /\ (forall p, In p [(moyasu_title, moyasu_url); (moyasu_title, moyasu_url)] ->
          count_occ pair_eq_dec
            (list_set_nodup [(moyasu_title, moyasu_url); (moyasu_title, moyasu_url)]) p
          = 1%nat)
    /\ NoDup (map record_key records)
    /\ incl (map record_key records)
            [(moyasu_title, moyasu_url); (moyasu_title, moyasu_url)]
    /\ (forall t u,
          In (t, u) [(moyasu_title, moyasu_url); (moyasu_title, moyasu_url)] ->
          (forall p, In p [(moyasu_title, moyasu_url); (moyasu_title, moyasu_url)] ->
                     p = (t, u)) ->
          requests s = [base_url; u]
          /\ records = page_record (web_guide [base_url] u) (t, u)).
Proof.
  apply (fetch_detailed_guide_dedup web_guide urljoin_absolute list_set_nodup
           (mkresponse 200
              (mkdocument None
                 (Some (mkregion [(Some moyasu_url, moyasu_title);
                                  (Some moyasu_url, moyasu_title)] []))
                 None))
           (mkregion [(Some moyasu_url, moyasu_title);
                      (Some moyasu_url, moyasu_title)] [])
           [(moyasu_title, moyasu_url); (moyasu_title, moyasu_url)]).
  - exact list_set_nodup_contract.
  - reflexivity.
  - reflexivity.
  - reflexivity.
Defined.

(** * More on the calendar *)

Lemma store_eta {R} (s : store R) : mkstore (requests s) (rows s ++ []) = s.
Proof.
  destruct s. cbn. now rewrite app_nil_r.
Qed.

Lemma for_each_app {R A} (body : A -> M R unit) (xs ys : list A) (s : store R) :
  for_each (xs ++ ys) body s = bind (for_each xs body) (fun _ => for_each ys body) s.
Proof.
  revert s. induction xs as [| x xs IH]; intros s; cbn.
  - reflexivity.
  - unfold bind. destruct (body x s) as [[u | e] s']; [| reflexivity].
    rewrite IH. reflexivity.
Qed.

(** The two nested loops read the cells of the table in one sequence. *)
Lemma for_each_concat {R A} (body : A -> M R unit) (xss : list (list A)) (s : store R) :
  for_each xss (fun xs => for_each xs body) s = for_each (concat xss) body s.
Proof.
  revert s. induction xss as [| xs xss IH]; intros s; cbn [for_each concat].
  - reflexivity.
  - rewrite for_each_app. unfold bind.
    destruct (for_each xs body s) as [[u | e] s']; [apply IH | reflexivity].
Qed.

Lemma upto_newline_no_newline (t : str) : ~ In c_newline (upto_newline t).
Proof.
  induction t as [| c t IH]; cbn; [tauto |].
  destruct (c =? c_newline)%N eqn:E; cbn; [tauto |].
  apply N.eqb_neq in E. intros [H | H]; [congruence | tauto].
Qed.

Section CalendarMore.

Variable digit_value : char -> option Z.
Variable int_max_str_digits : nat.
Variable http : list str -> str -> http_result.
Variable sort_values : list entry -> list entry.

Local Abbreviation cell := (parse_cell digit_value int_max_str_digits).
Local Abbreviation cells_of_month := (month_rows digit_value int_max_str_digits).
Local Abbreviation month_loop := (fetch_month digit_value int_max_str_digits http).
Local Abbreviation whole_fetch :=
  (fetch_calendar_data digit_value int_max_str_digits http sort_values).

(** What a cell does is the same in every store: it adds nothing, or one
    row and returns, and it touches neither the rows before nor the
    requests; when it raises it adds nothing. *)
Lemma parse_cell_outcome (now : date) (y m : Z) (text : str) :
  exists r new,
    (forall s, cell now y m text s = (r, mkstore (requests s) (rows s ++ new)))
    /\ (new = [] \/ (r = Ok tt /\ exists e, new = [e])).
Proof.
  unfold parse_cell.
  destruct (truthy text);
    [| exists (Ok tt), []; split; [intros s; cbn; now rewrite store_eta | now left]].
  destruct (re_match digit_value text) as [[g1 g2] |];
    [| exists (Ok tt), []; split; [intros s; cbn; now rewrite store_eta | now left]].
  unfold bind, lift.
  destruct (py_int digit_value int_max_str_digits g1) as [d | e];
    [| exists (Raise e), []; split; [intros s; now rewrite store_eta | now left]].
  destruct (date_new y m d) as [dt | e];
    [| exists (Raise e), []; split; [intros s; now rewrite store_eta | now left]].
  destruct (date_geb dt now);
    [| exists (Ok tt), []; split; [intros s; cbn; now rewrite store_eta | now left]].
  destruct (get_weekday_str y m d) as [w | e];
    [| exists (Raise e), []; split; [intros s; now rewrite store_eta | now left]].
  eexists (Ok tt), [_]. split; [intros s; reflexivity | right; eauto].
Qed.

Lemma month_rows_cons (now : date) (y m : Z) (text : str) (cells : list str)
  (r : result unit) (new : list entry) :
  (forall s, cell now y m text s = (r, mkstore (requests s) (rows s ++ new))) ->
  cells_of_month now y m (text :: cells)
  = match r with
    | Ok _ => new ++ cells_of_month now y m cells
    | Raise _ => new
    end.
Proof.
  intros H. cbn [month_rows]. rewrite (H empty_store). cbn.
  destruct r; reflexivity.
Qed.

(** The loop over the cells leaves the rows of [month_rows], whether it
    ends normally or by an exception. *)
Lemma for_each_cells (now : date) (y m : Z) (cells : list str) (s : store entry) :
  exists r,
    for_each cells (cell now y m) s
    = (r, mkstore (requests s) (rows s ++ cells_of_month now y m cells)).
Proof.
  revert s. induction cells as [| text cells IH]; intros s.
  - exists (Ok tt). cbn. now rewrite store_eta.
  - destruct (parse_cell_outcome now y m text) as (r & new & H & _).
    rewrite (month_rows_cons now y m text cells r new H).
    cbn [for_each]. unfold bind. rewrite (H s).
    destruct r as [u | e].
    + destruct (IH (mkstore (requests s) (rows s ++ new))) as [r' E].
      exists r'. rewrite E. cbn [requests rows]. now rewrite app_assoc.
    + exists (Raise e). reflexivity.
Qed.

(** X1: a month that answers 200 with a table adds to [all_data] the rows
    of its cells, read row by row and cell by cell, up to the first cell
    that raises; it sends one request and returns normally. *)
Theorem fetch_month_rows
  (now : date) (y m : Z) (s : store entry) (r : response) (table : list (list str)) :
  http (requests s) (get_url_by_date y m) = Responds r ->
  status_code r = 200 ->
  first_table (soup r) = Some table ->
  month_loop now (y, m) s
  = (Ok tt,
     mkstore (requests s ++ [get_url_by_date y m])
             (rows s ++ cells_of_month now y m (concat table))).
Proof.
  intros Hr Hs Ht.
  unfold fetch_month, try_except, bind, requests_get.
  rewrite Hr, Hs, Ht. cbn [Z.eqb Pos.eqb].
  rewrite for_each_concat.
  destruct (for_each_cells now y m (concat table)
              (mkstore (requests s ++ [get_url_by_date y m]) (rows s))) as [r' E].
  rewrite E. cbn [requests rows]. destruct r' as [[] | e]; reflexivity.
Qed.

Lemma span_digits_app (ds rest : str) :
  Forall (fun c => digit_value c <> None) ds ->
  match rest with [] => True | c :: _ => digit_value c = None end ->
  span_digits digit_value (ds ++ rest) = (ds, rest).
Proof.
  intros Hd Hr. induction Hd as [| c ds Hc _ IH]; cbn.
  - destruct rest as [| c rest]; [reflexivity |]. cbn. now rewrite Hr.
  - destruct (digit_value c); [| congruence]. now rewrite IH.
Qed.

(** X2: a cell that starts with the digits of a day of the month, on or
    after the reference date, adds exactly one row: the date, the column
    "日付" as month/day, the weekday label of the date, and as label what
    follows the digits up to the end of the line. *)
Theorem cell_with_day_adds_row
  (now : date) (y m : Z) (ds rest : str) (d : Z) (dt : date) (s : store entry) :
  ds <> [] ->
  Forall (fun c => digit_value c <> None) ds ->
  match rest with [] => True | c :: _ => digit_value c = None end ->
  py_int digit_value int_max_str_digits ds = Ok d ->
  date_new y m d = Ok dt ->
  date_geb dt now = true ->
  exists w,
    In w weekdays
    /\ get_weekday_str y m d = Ok w
    /\ cell now y m (ds ++ rest) s
       = (Ok tt,
          mkstore (requests s)
                  (rows s ++ [mkentry dt (str_of_int m ++ c_slash :: str_of_int d) w
                                      (upto_newline rest)])).
Proof.
  intros Hne Hd Hr Hint Hdate Hge.
  destruct (get_weekday_str_valid y m d dt Hdate) as (w & Ew & Hw).
  exists w. split; [exact Hw |]. split; [exact Ew |].
  unfold parse_cell, re_match. rewrite (span_digits_app ds rest Hd Hr).
  destruct ds as [| c ds]; [congruence |]. cbn [app truthy].
  unfold bind, lift. rewrite Hint, Hdate, Hge, Ew. reflexivity.
Qed.

(** X3: a cell that is empty or does not start with a digit is skipped:
    no row, no exception, the store is as before. *)
Theorem cell_without_digit_skipped
  (now : date) (y m : Z) (text : str) (s : store entry) :
  match text with [] => True | c :: _ => digit_value c = None end ->
  cell now y m text s = (Ok tt, s).
Proof.
  intros H. unfold parse_cell, re_match.
  destruct text as [| c text]; [reflexivity |].
  cbn. rewrite H. reflexivity.
Qed.

(** X4: a cell whose day lies before the reference date is skipped
    without an exception. *)
Theorem cell_in_the_past_skipped
  (now : date) (y m : Z) (text g1 g2 : str) (d : Z) (dt : date) (s : store entry) :
  re_match digit_value text = Some (g1, g2) ->
  py_int digit_value int_max_str_digits g1 = Ok d ->
  date_new y m d = Ok dt ->
  date_geb dt now = false ->
  cell now y m text s = (Ok tt, s).
Proof.
  intros Hm Hint Hdate Hge. unfold parse_cell. rewrite Hm.
  destruct text as [| c text]; [discriminate Hm |]. cbn [truthy].
  unfold bind, lift. rewrite Hint, Hdate, Hge. reflexivity.
Qed.

(** X5: a cell whose digits are no day of the month raises the exception
    of [datetime.date] and leaves the store as it was; in a month, the
    cells after it add nothing, the rows of the cells before it stay. *)
Theorem cells_after_invalid_day_dropped
  (now : date) (y m : Z) (text g1 g2 : str) (d : Z) (e : exn) :
  re_match digit_value text = Some (g1, g2) ->
  py_int digit_value int_max_str_digits g1 = Ok d ->
  date_new y m d = Raise e ->
  (forall s, cell now y m text s = (Raise e, s))
  /\ (forall before after,
        cells_of_month now y m (before ++ text :: after)
        = cells_of_month now y m before).
Proof.
  intros Hm Hint Hdate.
  assert (C : forall s, cell now y m text s = (Raise e, s)).
  { intros s. unfold parse_cell. rewrite Hm.
    destruct text as [| c text]; [discriminate Hm |]. cbn [truthy].
    unfold bind, lift. rewrite Hint, Hdate. reflexivity. }
  split; [exact C |].
  intros before after. induction before as [| a before IH].
  - cbn [app month_rows]. rewrite C. reflexivity.
  - cbn [app month_rows].
    destruct (parse_cell digit_value int_max_str_digits now y m a empty_store)
      as [[u | x] s0]; [now rewrite IH | reflexivity].
Qed.

(** A month never raises and sends one request; what holds of every row a
    cell adds holds of the rows the month adds. *)
Lemma fetch_month_rows_satisfy (P : entry -> Prop) (now : date) (y m : Z) :
  (forall text s, extends_with P s (snd (cell now y m text s))) ->
  forall s,
  exists s',
    month_loop now (y, m) s = (Ok tt, s')
    /\ requests s' = requests s ++ [get_url_by_date y m]
    /\ exists new, rows s' = rows s ++ new /\ Forall P new.
Proof.
  intros Hcell s. unfold fetch_month, try_except, bind, requests_get.
  set (s1 := mkstore (requests s ++ [get_url_by_date y m]) (rows s)).
  assert (U : exists new, rows s1 = rows s ++ new /\ Forall P new).
  { exists []. split; [now rewrite app_nil_r | constructor]. }
  destruct (http (requests s) (get_url_by_date y m)) as [x | r];
    [exists s1; auto |].
  destruct (status_code r =? 200); [| exists s1; auto].
  destruct (first_table (soup r)) as [table |]; [| exists s1; auto].
  pose proof (for_each_extends P
                (fun cols => for_each cols (cell now y m)) table
                (fun cols s0 => for_each_extends P (cell now y m) cols Hcell s0)
                s1) as H.
  destruct (for_each table _ s1) as [[[] | x] s2]; cbn in H |- *;
    destruct H as (Hr & new & Hn & Hf);
    exists s2; (split; [reflexivity |]); (split; [exact Hr |]);
    exists new; split; auto.
Qed.

(** The row of a cell of month [m] of year [y]. *)
Lemma parse_cell_row_shape (now : date) (y m : Z) (text : str) (s : store entry) :
  extends_with
    (fun e =>
       year (date_obj e) = y /\ month (date_obj e) = m
       /\ hizuke e = str_of_int m ++ c_slash :: str_of_int (day (date_obj e))
       /\ ~ In c_newline (gomi_type e))
    s (snd (cell now y m text s)).
Proof.
  unfold parse_cell.
  destruct (truthy text); [| cbn; apply extends_refl].
  unfold re_match. destruct (span_digits digit_value text) as [ds rest].
  destruct ds as [| c ds]; [cbn; apply extends_refl |].
  unfold bind, lift.
  destruct (py_int digit_value int_max_str_digits (c :: ds)) as [d | x];
    [| cbn; apply extends_refl].
  destruct (date_new y m d) as [dt | x] eqn:Ed; [| cbn; apply extends_refl].
  destruct (date_geb dt now); [| cbn; apply extends_refl].
  destruct (get_weekday_str y m d) as [w | x]; [| cbn; apply extends_refl].
  cbn. split; [reflexivity |]. eexists. split; [reflexivity |].
  constructor; [| constructor].
  pose proof (date_new_ok y m d dt Ed) as ->. cbn.
  repeat split; auto. apply upto_newline_no_newline.
Qed.

(** X6: every row of the table belongs to one of the two months asked
    for, its column "日付" is the month and the day of its date joined by
    a slash, and its label holds no newline. *)
Theorem fetch_calendar_data_row_shape (now : date) :
  (forall l, Permutation l (sort_values l)) ->
  exists table s,
    run (whole_fetch now) = (Ok table, s)
    /\ Forall (fun e =>
                 let d := date_obj e in
                 In (year d, month d) (years_months now)
                 /\ hizuke e = str_of_int (month d) ++ c_slash :: str_of_int (day d)
                 /\ ~ In c_newline (gomi_type e)) table.
Proof.
  intros Hperm.
  set (Q := fun e : entry =>
              let d := date_obj e in
              In (year d, month d) (years_months now)
              /\ hizuke e = str_of_int (month d) ++ c_slash :: str_of_int (day d)
              /\ ~ In c_newline (gomi_type e)).
  assert (Step : forall ym s, In ym (years_months now) ->
            exists s', month_loop now ym s = (Ok tt, s')
                       /\ exists new, rows s' = rows s ++ new /\ Forall Q new).
  { intros [y m] s Hin.
    destruct (fetch_month_rows_satisfy _ now y m (parse_cell_row_shape now y m) s)
      as (s' & E & _ & new & N & F).
    exists s'. split; [exact E |]. exists new. split; [exact N |].
    eapply Forall_impl; [| exact F].
    intros e (Hy & Hm & Hh & Hn). unfold Q. cbn. rewrite Hy, Hm.
    repeat split; auto. }
  assert (S : exists s, run (scrape_calendar digit_value int_max_str_digits http now)
                        = (Ok tt, s) /\ Forall Q (rows s)).
  { unfold run, scrape_calendar. unfold years_months in *.
    cbn [for_each]. unfold bind.
    destruct (Step _ empty_store (or_introl eq_refl)) as (s1 & E1 & n1 & N1 & F1).
    rewrite E1.
    destruct (Step _ s1 (or_intror (or_introl eq_refl))) as (s2 & E2 & n2 & N2 & F2).
    rewrite E2. exists s2. split; [reflexivity |].
    rewrite N2, N1. cbn. apply Forall_app. now split. }
  destruct S as (s & E & F).
  rewrite (fetch_calendar_data_unfold _ _ _ sort_values now s E).
  eexists. exists s. split; [reflexivity |].
  destruct (rows s) as [| e l]; [constructor |].
  eapply Permutation_Forall; [apply Hperm | exact F].
Qed.

Lemma fetch_month_barren (now : date) (y m : Z) (s : store entry) :
  barren (http (requests s) (get_url_by_date y m)) = true ->
  month_loop now (y, m) s
  = (Ok tt, mkstore (requests s ++ [get_url_by_date y m]) (rows s)).
Proof.
  unfold barren, fetch_month, try_except, bind, requests_get.
  destruct (http (requests s) (get_url_by_date y m)) as [x | r]; [reflexivity |].
  destruct (status_code r =? 200); [| reflexivity].
  destruct (first_table (soup r)); [discriminate | reflexivity].
Qed.

Lemma scrape_calendar_barren (now : date) (u1 u2 : str) :
  map (fun ym => get_url_by_date (fst ym) (snd ym)) (years_months now) = [u1; u2] ->
  barren (http [] u1) = true ->
  barren (http [u1] u2) = true ->
  run (scrape_calendar digit_value int_max_str_digits http now)
  = (Ok tt, mkstore [u1; u2] []).
Proof.
  unfold years_months. cbn [map fst snd]. intros Hu H1 H2.
  injection Hu as Hu1 Hu2. subst u1.
  unfold run, scrape_calendar, years_months. cbn [for_each]. unfold bind.
  rewrite (fetch_month_barren now (year now) (month now) empty_store H1).
  cbn [requests rows empty_store app].
  destruct (month now =? 12); cbn [fst snd] in Hu2; subst u2;
    rewrite fetch_month_barren by exact H2; reflexivity.
Qed.

(** X7: when both months fail, answer with a status other than 200 or
    have no table, the table is empty and two requests were sent; a page
    that is not answered with 200 is not read even if it has a table. *)
Theorem fetch_calendar_data_nothing_served (now : date) (u1 u2 : str) :
  map (fun ym => get_url_by_date (fst ym) (snd ym)) (years_months now) = [u1; u2] ->
  barren (http [] u1) = true ->
  barren (http [u1] u2) = true ->
  run (whole_fetch now) = (Ok [], mkstore [u1; u2] []).
Proof.
  intros Hu H1 H2.
  rewrite (fetch_calendar_data_unfold _ _ _ sort_values now _
             (scrape_calendar_barren now u1 u2 Hu H1 H2)).
  reflexivity.
Qed.

End CalendarMore.

(** X8: for arguments in the range of a C [int], [get_weekday_str] never
    raises: on a date of the calendar it returns one of the seven labels,
    on any other triple the empty string. *)
Theorem get_weekday_str_total (y m d : Z) :
  fits_c_int y && fits_c_int m && fits_c_int d = true ->
  (exists dt w,
      date_new y m d = Ok dt /\ get_weekday_str y m d = Ok w /\ In w weekdays)
  \/ (date_new y m d = Raise ValueError /\ get_weekday_str y m d = Ok []).
Proof.
  intros Hc. destruct (date_new y m d) as [dt | e] eqn:E.
  - left. destruct (get_weekday_str_valid y m d dt E) as (w & Ew & Hw). eauto.
  - right. assert (e = ValueError) as ->.
    { unfold date_new in E. rewrite Hc in E. cbn [negb] in E.
      repeat match type of E with
             | (if ?b then _ else _) = _ => destruct b
             end; congruence. }
    split; [reflexivity |]. unfold get_weekday_str. now rewrite E.
Qed.

(** * More on the guide *)

(** X9: the mapper returns the label of the first key of its table, in
    the order of the table, that occurs in the title, and the title
    itself when no key occurs in it. *)
Theorem map_guide_to_calendar_first_key (t : str) :
  (Forall (fun kv => contains (fst kv) t = false) mapping
   /\ map_guide_to_calendar t = t)
  \/ (exists before key val after,
        mapping = before ++ (key, val) :: after
        /\ Forall (fun kv => contains (fst kv) t = false) before
        /\ contains key t = true
        /\ map_guide_to_calendar t = val).
Proof.
  unfold map_guide_to_calendar.
  assert (G : forall items,
             (Forall (fun kv => contains (fst kv) t = false) items
              /\ first_match items t = None)
             \/ (exists before key val after,
                   items = before ++ (key, val) :: after
                   /\ Forall (fun kv => contains (fst kv) t = false) before
                   /\ contains key t = true
                   /\ first_match items t = Some val)).
  { induction items as [| [k v] items IH]; cbn [first_match].
    - left. split; [constructor | reflexivity].
    - destruct (contains k t) eqn:E.
      + right. exists [], k, v, items. repeat split; auto.
      + destruct IH as [[F N] | (b & k' & v' & a & -> & F & C & M)].
        * left. split; [constructor; auto | exact N].
        * right. exists ((k, v) :: b), k', v', a.
          repeat split; auto. }
  destruct (G mapping) as [[F N] | (b & k & v & a & S & F & C & M)].
  - left. rewrite N. auto.
  - right. exists b, k, v, a. rewrite M. auto.
Qed.

Lemma crawl_rows_in (http : list str -> str -> http_result)
  (tasks : list (str * str)) (history : list str) (r : guide_record) :
  In r (crawl_rows http history tasks) ->
  exists target h, In target tasks /\ In r (page_record (http h (snd target)) target).
Proof.
  revert history. induction tasks as [| t tasks IH]; intros history; cbn.
  - intros [].
  - intros H. apply in_app_or in H. destruct H as [H | H].
    + exists t, history. auto.
    + destruct (IH _ H) as (t' & h & Hin & Hr). exists t', h. auto.
Qed.

Lemma crawl_rows_static (page : str -> http_result) (tasks : list (str * str))
  (history : list str) :
  crawl_rows (fun _ u => page u) history tasks
  = flat_map (fun target => page_record (page (snd target)) target) tasks.
Proof.
  revert history. induction tasks as [| t tasks IH]; intros history; cbn.
  - reflexivity.
  - now rewrite IH.
Qed.

Section GuideMore.

Variable http : list str -> str -> http_result.
Variable urljoin : str -> str -> result str.
Variable list_set : list (str * str) -> list (str * str).

Local Abbreviation page_loop := (fetch_page http).
Local Abbreviation whole_guide := (fetch_detailed_guide http urljoin list_set).
Local Abbreviation targets_of := (collect_targets urljoin).

Lemma for_each_pages (tasks : list (str * str)) (s : store guide_record) :
  for_each tasks page_loop s
  = (Ok tt,
     mkstore (requests s ++ map snd tasks)
             (rows s ++ crawl_rows http (requests s) tasks)).
Proof.
  revert s. induction tasks as [| t tasks IH]; intros s.
  - cbn. rewrite app_nil_r. now rewrite store_eta.
  - cbn [for_each]. unfold bind. rewrite fetch_page_spec, IH.
    cbn [requests rows map crawl_rows]. now rewrite <- !app_assoc.
Qed.

Lemma guide_run (idx : response) (area : region) (targets : list (str * str)) :
  http [] base_url = Responds idx ->
  content_area (soup idx) = Some area ->
  targets_of (anchors area) = Ok targets ->
  fst (run whole_guide) = Ok (crawl_rows http [base_url] (list_set targets)).
Proof.
  intros Hidx Harea Htargets.
  unfold run, fetch_detailed_guide, try_except, bind, requests_get, lift, get_rows.
  cbn [empty_store requests rows app]. rewrite Hidx, Harea, Htargets.
  rewrite for_each_pages. reflexivity.
Qed.

(** X10: when the index page arrives with a content region and its links
    resolve, the guide is made of the records of the linked pages in the
    order the set of targets is enumerated, one request per target; a
    page that fails or has no content region leaves out its own record
    and nothing else. *)
Theorem fetch_detailed_guide_records
  (idx : response) (area : region) (targets : list (str * str)) :
  http [] base_url = Responds idx ->
  content_area (soup idx) = Some area ->
  targets_of (anchors area) = Ok targets ->
  run whole_guide
  = (Ok (crawl_rows http [base_url] (list_set targets)),
     mkstore (base_url :: map snd (list_set targets))
             (crawl_rows http [base_url] (list_set targets))).
Proof.
  intros Hidx Harea Htargets.
  unfold run, fetch_detailed_guide, try_except, bind, requests_get, lift, get_rows.
  cbn [empty_store requests rows app]. rewrite Hidx, Harea, Htargets.
  rewrite for_each_pages. reflexivity.
Qed.

(** X11: the guide is empty, after the one request for the index, when
    that request fails or the page has neither of the two content
    regions. The status of the answer is not looked at. *)
Theorem fetch_detailed_guide_no_index :
  match http [] base_url with
  | Fails _ => True
  | Responds idx => content_area (soup idx) = None
  end ->
  run whole_guide = (Ok [], mkstore [base_url] []).
Proof.
  unfold run, fetch_detailed_guide, try_except, bind, requests_get.
  cbn [empty_store requests rows app].
  destruct (http [] base_url) as [e | idx]; [reflexivity |].
  intros ->. reflexivity.
Qed.

(** X12: when [urljoin] raises on the address of one qualifying link, no
    page is requested and the guide is empty, whatever the other links
    are: the addresses are resolved outside the handler of the page
    loop. *)
Theorem fetch_detailed_guide_bad_link (idx : response) (area : region) (e : exn) :
  http [] base_url = Responds idx ->
  content_area (soup idx) = Some area ->
  targets_of (anchors area) = Raise e ->
  run whole_guide = (Ok [], mkstore [base_url] []).
Proof.
  intros Hidx Harea Htargets.
  unfold run, fetch_detailed_guide, try_except, bind, requests_get, lift.
  cbn [empty_store requests rows app]. rewrite Hidx, Harea, Htargets. reflexivity.
Qed.

Lemma collect_targets_ok (links : list (option str * str)) (targets : list (str * str)) :
  targets_of links = Ok targets ->
  Forall2 (fun link target =>
             fst target = snd link
             /\ exists h, fst link = Some h
                         /\ urljoin base_url h = Ok (snd target))
          (filter qualifies links) targets.
Proof.
  revert targets. induction links as [| [href text] links IH]; intros targets H.
  - cbn in H. injection H as <-. constructor.
  - cbn [collect_targets filter] in H |- *. unfold qualifies at 1. cbn [fst snd].
    destruct href as [h |]; [| exact (IH _ H)].
    destruct (truthy h && truthy text
              && existsb (fun k => contains k text) keywords) eqn:Q;
      [| exact (IH _ H)].
    destruct (urljoin base_url h) as [u |] eqn:U; [| discriminate H].
    cbn [rbind] in H.
    destruct (collect_targets urljoin links) as [rest |]; [| discriminate H].
    cbn [rbind] in H. injection H as <-.
    constructor; [| exact (IH _ eq_refl)].
    cbn [fst snd]. split; [reflexivity |]. exists h. auto.
Qed.

(** X13: links that do not qualify (no address, an empty address, an
    empty text, no keyword in the text) play no part, not even when
    their address is malformed; the targets are the qualifying links in
    page order, each with its text and its resolved address; and the
    loop raises exactly when a qualifying address does not resolve. *)
Theorem collect_targets_qualifying (links : list (option str * str)) :
  targets_of links = targets_of (filter qualifies links)
  /\ (forall targets,
        targets_of links = Ok targets ->
        Forall2 (fun link target =>
                   fst target = snd link
                   /\ exists h, fst link = Some h
                               /\ urljoin base_url h = Ok (snd target))
                (filter qualifies links) targets)
  /\ (forall e,
        targets_of links = Raise e ->
        exists h text,
          In (Some h, text) (filter qualifies links)
          /\ urljoin base_url h = Raise e).
Proof.
  split; [| split].
  - induction links as [| [href text] links IH]; [reflexivity |].
    cbn [collect_targets filter]. unfold qualifies at 1. cbn [fst snd].
    destruct href as [h |]; [| exact IH].
    destruct (truthy h && truthy text
              && existsb (fun k => contains k text) keywords) eqn:Q; [| exact IH].
    cbn [collect_targets]. rewrite Q, IH. reflexivity.
  - intros targets. apply collect_targets_ok.
  - induction links as [| [href text] links IH]; intros e H.
    + discriminate H.
    + cbn [collect_targets filter] in H |- *. unfold qualifies at 1. cbn [fst snd].
      destruct href as [h |]; [| exact (IH _ H)].
      destruct (truthy h && truthy text
                && existsb (fun k => contains k text) keywords) eqn:Q;
        [| exact (IH _ H)].
      destruct (urljoin base_url h) as [u | x] eqn:U.
      * cbn [rbind] in H.
        destruct (collect_targets urljoin links) as [rest | x]; [discriminate H |].
        cbn [rbind] in H. injection H as <-.
        destruct (IH _ eq_refl) as (h' & t' & Hin & Hr).
        exists h', t'. split; [now right | exact Hr].
      * cbn [rbind] in H. injection H as <-.
        exists h, text. split; [now left | exact U].
Qed.

Lemma forall2_in_right {A B} (P : A -> B -> Prop) (l : list A) (l' : list B) (b : B) :
  Forall2 P l l' -> In b l' -> exists a, In a l /\ P a b.
Proof.
  induction 1 as [| a b' l l' Hp _ IH]; intros Hin; [destruct Hin |].
  destruct Hin as [<- | Hin].
  - exists a. split; [now left | exact Hp].
  - destruct (IH Hin) as (a' & Ha & Hp'). exists a'. split; [now right | exact Hp'].
Qed.

(** X14: every record of the guide comes from a link of the index page:
    its category name is the text of the link and holds one of the six
    keywords, its address is the address of the link resolved against
    the index, and its calendar name is the mapper applied to the
    category name. *)
Theorem fetch_detailed_guide_record_origin
  (idx : response) (area : region) (targets : list (str * str)) :
  set_contract list_set ->
  http [] base_url = Responds idx ->
  content_area (soup idx) = Some area ->
  targets_of (anchors area) = Ok targets ->
  exists records s,
    run whole_guide = (Ok records, s)
    /\ Forall (fun r =>
                 calendar_name r = map_guide_to_calendar (category_name r)
                 /\ existsb (fun k => contains k (category_name r)) keywords = true
                 /\ exists h,
                      In (Some h, category_name r) (anchors area)
                      /\ h <> []
                      /\ urljoin base_url h = Ok (url r)) records.
Proof.
  intros Hset Hidx Harea Htargets.
  pose proof (guide_run idx area targets Hidx Harea Htargets) as G.
  destruct (run whole_guide) as [res s]. cbn [fst] in G. subst res.
  eexists. exists s. split; [reflexivity |].
  apply Forall_forall. intros r Hr.
  apply crawl_rows_in in Hr. destruct Hr as ([title link_url] & h0 & Hin & Hr).
  apply (proj2 (Hset targets)) in Hin.
  destruct (forall2_in_right _ _ _ _ (collect_targets_ok _ _ Htargets) Hin)
    as ([href text] & Hl & Ht & h & Hh & Hu).
  cbn [fst snd] in Ht, Hh, Hu. subst href title.
  apply filter_In in Hl. destruct Hl as [Hl Hq].
  unfold qualifies in Hq. cbn [fst snd] in Hq.
  apply andb_true_iff in Hq. destruct Hq as [Hq Hk].
  apply andb_true_iff in Hq. destruct Hq as [Hh _].
  unfold page_record in Hr. cbn [fst snd] in Hr.
  destruct (http h0 link_url) as [x | resp]; [destruct Hr |].
  destruct (content_area (soup resp)); [| destruct Hr].
  destruct Hr as [<- | []]. cbn.
  split; [reflexivity |]. split; [exact Hk |].
  exists h. repeat split; auto. intros ->. discriminate Hh.
Qed.

End GuideMore.

(** X15: on a web whose answers do not depend on what was asked before,
    the guide holds a record for each distinct qualifying link whose page
    arrives with a content region, and no other record: a page that
    fails does not take the others with it. *)
Theorem fetch_detailed_guide_partial_failure
  (page : str -> http_result)
  (urljoin : str -> str -> result str)
  (list_set : list (str * str) -> list (str * str))
  (idx : response) (area : region) (targets : list (str * str)) :
  set_contract list_set ->
  page base_url = Responds idx ->
  content_area (soup idx) = Some area ->
  collect_targets urljoin (anchors area) = Ok targets ->
  exists records s,
    run (fetch_detailed_guide (fun _ u => page u) urljoin list_set) = (Ok records, s)
    /\ forall r,
         In r records
         <-> exists target,
               In target targets /\ In r (page_record (page (snd target)) target).
Proof.
  intros Hset Hidx Harea Htargets.
  pose proof (guide_run (fun _ u => page u) urljoin list_set
                idx area targets Hidx Harea Htargets) as G.
  destruct (run (fetch_detailed_guide (fun _ u => page u) urljoin list_set))
    as [res s].
  cbn [fst] in G. subst res.
  eexists. exists s. split; [reflexivity |].
  intros r. rewrite crawl_rows_static, in_flat_map.
  split; intros (t & Hin & Hr); exists t; (split; [| exact Hr]);
    now apply (proj2 (Hset targets)).
Qed.

(** * What the tabs show *)

Lemma date_eqb_eq (a b : date) : date_eqb a b = true -> a = b.
Proof.
  destruct a, b. unfold date_eqb. cbn. bool_to_Z. intros [[-> ->] ->]. reflexivity.
Qed.

Lemma date_geb_refl (a : date) : date_geb a a = true.
Proof.
  unfold date_geb, date_leb. bool_to_Z. lia.
Qed.

Lemma filter_filter_sub {A} (f g : A -> bool) (l : list A) :
  (forall x, f x = true -> g x = true) ->
  filter f (filter g l) = filter f l.
Proof.
  intros H. induction l as [| x l IH]; cbn; [reflexivity |].
  destruct (g x) eqn:G; cbn.
  - now rewrite IH.
  - destruct (f x) eqn:F; [| exact IH]. rewrite (H x F) in G. discriminate.
Qed.

Lemma filter_head_find {A} (f : A -> bool) (l : list A) :
  find f l = match filter f l with x :: _ => Some x | [] => None end.
Proof.
  induction l as [| x l IH]; cbn; [reflexivity |].
  destruct (f x); [reflexivity | exact IH].
Qed.

Lemma find_sorted_least (f : entry -> bool) (l : list entry) (row : entry) :
  StronglySorted entry_le l ->
  find f l = Some row ->
  forall e, In e l -> f e = true -> entry_le row e.
Proof.
  induction 1 as [| x l Hs IH Hx]; cbn; [discriminate |].
  destruct (f x) eqn:F.
  - intros [= <-] e [<- | Hin] _.
    + unfold entry_le, date_leb. bool_to_Z. lia.
    + rewrite Forall_forall in Hx. exact (Hx e Hin).
  - intros Hf e [<- | Hin] Fe; [congruence |]. exact (IH Hf e Hin Fe).
Qed.

Section DisplayFacts.

Variable label_set : list str -> list str.

Local Abbreviation tab1 := (main_tab1 label_set).

(** X16: when the table has a row dated today, the first tab opens with
    the link to the official page and the announcement of today's
    collection, taken from the first such row of the table. *)
Theorem main_tab1_today (now : date) (df : list entry) (row : entry) :
  find (fun e => date_eqb (date_obj e) now) df = Some row ->
  date_obj row = now
  /\ exists rest,
      tab1 now df
      = st_markdown (official_link now)
        :: st_markdown (lit "### 📅 今日の収集")
        :: st_success (today_text row)
        :: st_markdown (today_type row)
        :: st_divider :: rest.
Proof.
  intros Hf. split.
  { apply find_some in Hf. now apply date_eqb_eq. }
  unfold main_tab1.
  destruct df as [| e0 df']; [discriminate Hf |].
  set (df := e0 :: df') in *. cbv zeta.
  pose proof (filter_filter_sub (fun e => date_eqb (date_obj e) now)
                (fun e => date_geb (date_obj e) now) df) as FF.
  rewrite filter_head_find in Hf.
  destruct (filter (fun e => date_geb (date_obj e) now) df) as [| first fut] eqn:Efut.
  - rewrite <- FF in Hf; [discriminate Hf |].
    intros x Hx. apply date_eqb_eq in Hx. rewrite Hx. apply date_geb_refl.
  - rewrite FF.
    + destruct (filter (fun e => date_eqb (date_obj e) now) df) as [| r ts];
        [discriminate Hf |].
      injection Hf as ->. cbn [app]. eexists. reflexivity.
    + intros x Hx. apply date_eqb_eq in Hx. rewrite Hx. apply date_geb_refl.
Qed.

(** X17: when no row is dated today, the first tab announces the first
    row of the table that is not in the past; on a table in order of
    date, no upcoming row is earlier. *)
Theorem main_tab1_next (now : date) (df : list entry) (row : entry) :
  StronglySorted entry_le df ->
  find (fun e => date_eqb (date_obj e) now) df = None ->
  find (fun e => date_geb (date_obj e) now) df = Some row ->
  (exists rest,
      tab1 now df
      = st_markdown (official_link now)
        :: st_info (next_text row) :: st_divider :: rest)
  /\ forall e, In e df -> date_geb (date_obj e) now = true -> entry_le row e.
Proof.
  intros Hs Hn Hf. split; [| exact (find_sorted_least _ df row Hs Hf)].
  unfold main_tab1.
  destruct df as [| e0 df']; [discriminate Hf |].
  set (df := e0 :: df') in *. cbv zeta.
  pose proof (filter_filter_sub (fun e => date_eqb (date_obj e) now)
                (fun e => date_geb (date_obj e) now) df) as FF.
  rewrite filter_head_find in Hf, Hn.
  destruct (filter (fun e => date_geb (date_obj e) now) df) as [| first fut] eqn:Efut;
    [discriminate Hf |].
  injection Hf as ->.
  rewrite FF.
  - destruct (filter (fun e => date_eqb (date_obj e) now) df) as [| r ts];
      [| discriminate Hn].
    cbn [app]. eexists. reflexivity.
  - intros x Hx. apply date_eqb_eq in Hx. rewrite Hx. apply date_geb_refl.
Qed.

Lemma label_set_empty :
  label_set_contract label_set -> label_set [] = [].
Proof.
  intros H. destruct (H []) as [_ Hm].
  destruct (label_set []) as [| x l]; [reflexivity |].
  destruct (proj1 (Hm x) (or_introl eq_refl)).
Qed.

(** The loop over the missing labels shows one message for each label
    that has a row among [rest_df], about the first such row. *)
Lemma later_infos_spec (rest_df : list entry) (types : list str) :
  (forall g, In g types -> In g (map gomi_type rest_df)) ->
  exists shown,
    later_infos rest_df types = (shown, Z.of_nat (List.length types))
    /\ Forall2 (fun g w =>
                  exists row,
                    find (fun e => str_eqb (gomi_type e) g) rest_df = Some row
                    /\ w = st_info (later_text g row))
               types shown.
Proof.
  induction types as [| g types IH]; intros Hin.
  - exists []. split; [reflexivity | constructor].
  - destruct IH as (shown & E & F); [intros g' Hg'; apply Hin; now right |].
    cbn [later_infos]. rewrite E.
    assert (Hg : In g (map gomi_type rest_df)) by (apply Hin; now left).
    apply in_map_iff in Hg. destruct Hg as (e & He & Hine).
    pose proof (filter_head_find (fun e => str_eqb (gomi_type e) g) rest_df) as Hf.
    destruct (filter (fun e => str_eqb (gomi_type e) g) rest_df) as [| row more] eqn:Ef.
    + exfalso.
      assert (Hx : In e (filter (fun e => str_eqb (gomi_type e) g) rest_df)).
      { apply filter_In. split; [exact Hine |]. rewrite He. apply str_eqb_refl. }
      rewrite Ef in Hx. destruct Hx.
    + exists (st_info (later_text g row) :: shown). split.
      * f_equal. cbn [List.length]. lia.
      * constructor; [exists row; auto | exact F].
Qed.

(** X18: when a row is upcoming, the first tab shows after the week
    table one message for each label that occurs among the rows after the
    first seven upcoming rows and not among those seven, each about the
    first later row with that label, and nothing after them; when there
    is no such label it ends with the caption that all is within the
    week. *)
Theorem main_tab1_later (now : date) (df : list entry) :
  label_set_contract label_set ->
  filter (fun e => date_geb (date_obj e) now) df <> [] ->
  let future_df := filter (fun e => date_geb (date_obj e) now) df in
  let one_week_df := firstn 7 future_df in
  let rest_df := skipn 7 future_df in
  let missing_types :=
    filter (fun t => negb (existsb (str_eqb t) (map gomi_type one_week_df)))
           (map gomi_type rest_df) in
  NoDup (label_set missing_types)
  /\ (forall g,
        In g (label_set missing_types)
        <-> In g (map gomi_type rest_df) /\ ~ In g (map gomi_type one_week_df))
  /\ exists before shown,
       tab1 now df
       = before
           ++ st_table (table_of one_week_df)
           :: st_subheader (lit "👀 次回以降の予定 (1週間以内にないもの)")
           :: shown
           ++ match missing_types with
              | [] => [st_caption (lit "※主要なゴミはすべて1週間以内に収集があります。")]
              | _ :: _ => []
              end
       /\ Forall2 (fun g w =>
                     exists row,
                       find (fun e => str_eqb (gomi_type e) g) rest_df = Some row
                       /\ w = st_info (later_text g row))
                  (label_set missing_types) shown.
Proof.
  intros Hset Hfut future_df one_week_df rest_df missing_types.
  destruct (Hset missing_types) as [Hnd Hmem].
  split; [exact Hnd |].
  assert (Hmiss : forall g,
             In g missing_types
             <-> In g (map gomi_type rest_df) /\ ~ In g (map gomi_type one_week_df)).
  { intros g. unfold missing_types. rewrite filter_In, negb_true_iff.
    split; intros [H1 H2]; (split; [exact H1 |]).
    - intros Hin. assert (X : existsb (str_eqb g) (map gomi_type one_week_df) = true).
      { apply existsb_exists. exists g. split; [exact Hin | apply str_eqb_refl]. }
      congruence.
    - destruct (existsb (str_eqb g) (map gomi_type one_week_df)) eqn:X; [| reflexivity].
      apply existsb_exists in X. destruct X as (x & Hx & Hxg).
      apply str_eqb_eq in Hxg. subst x. contradiction. }
  split.
  { intros g. rewrite Hmem. apply Hmiss. }
  destruct (later_infos_spec rest_df (label_set missing_types)) as (shown & E & F).
  { intros g Hg. apply Hmem, Hmiss in Hg. tauto. }
  unfold main_tab1.
  destruct df as [| e0 df']; [contradiction Hfut; reflexivity |].
  cbv zeta. fold future_df. fold one_week_df. fold rest_df. fold missing_types.
  destruct future_df as [| first fut] eqn:Efut; [contradiction Hfut; reflexivity |].
  set (headline := match filter (fun e => date_eqb (date_obj e) now) (first :: fut) with
                   | [] => [st_info (next_text first)]
                   | row :: _ =>
                     [st_markdown (lit "### 📅 今日の収集");
                      st_success (today_text row);
                      st_markdown (today_type row)]
                   end).
  exists (st_markdown (official_link now)
          :: headline ++ [st_divider; st_subheader (lit "📋 向こう1週間の予定")]).
  destruct missing_types as [| g0 more] eqn:Em.
  - rewrite (label_set_empty Hset) in F. inversion F. subst shown.
    exists []. split; [| rewrite (label_set_empty Hset); constructor].
    cbn [app]. rewrite <- app_assoc. reflexivity.
  - exists shown. split; [| exact F].
    rewrite E.
    assert (N : (Z.of_nat (List.length (label_set (g0 :: more))) =? 0) = false).
    { apply Z.eqb_neq.
      destruct (label_set (g0 :: more)) as [| x l] eqn:El; [| cbn [List.length]; lia].
      exfalso. destruct (proj2 (Hmem g0) (or_introl eq_refl)). }
    rewrite N. cbn [app]. rewrite <- app_assoc. reflexivity.
Qed.

(** X19: the caption for the case that the loop over the missing labels
    found nothing is never shown: every label the loop goes through has a
    row among the later rows. *)
Theorem main_tab1_caption_never_shown (now : date) (df : list entry) :
  label_set_contract label_set ->
  ~ In (st_caption (lit "※これ以外の収集予定は今のところありません。")) (tab1 now df).
Proof.
  intros Hset. unfold main_tab1.
  destruct df as [| e0 df'].
  { cbn [In]. intros [H | [H | [H | []]]]; discriminate H. }
  cbv zeta.
  destruct (filter (fun e => date_geb (date_obj e) now) (e0 :: df')) as [| first fut].
  { cbn [In]. intros [H | [H | []]]; discriminate H. }
  set (rest_df := skipn 7 (first :: fut)).
  set (one_week_df := firstn 7 (first :: fut)).
  set (missing_types :=
         filter (fun t => negb (existsb (str_eqb t) (map gomi_type one_week_df)))
                (map gomi_type rest_df)).
  intros [H | H]; [discriminate H |].
  apply in_app_or in H. destruct H as [H | H].
  { destruct (filter (fun e => date_eqb (date_obj e) now) (first :: fut));
      cbn [In] in H; intuition discriminate. }
  destruct H as [H | [H | [H | [H | H]]]]; try discriminate H.
  destruct missing_types as [| g0 more] eqn:Em.
  { destruct H as [H | []]. injection H as H. vm_compute in H. discriminate H. }
  destruct (Hset (g0 :: more)) as [_ Hmem].
  destruct (later_infos_spec rest_df (label_set (g0 :: more))) as (shown & E & F).
  { intros g Hg. apply Hmem in Hg. rewrite <- Em in Hg. unfold missing_types in Hg.
    apply filter_In in Hg. tauto. }
  rewrite E in H.
  assert (N : (Z.of_nat (List.length (label_set (g0 :: more))) =? 0) = false).
  { apply Z.eqb_neq.
    destruct (label_set (g0 :: more)) as [| x l] eqn:El; [| cbn [List.length]; lia].
    exfalso. destruct (proj2 (Hmem g0) (or_introl eq_refl)). }
  rewrite N, app_nil_r in H.
  destruct (forall2_in_right _ _ _ _ F H) as (g & _ & row & _ & Hw).
  discriminate Hw.
Qed.

End DisplayFacts.

Lemma filter_all_true {A} (f : A -> bool) (l : list A) :
  Forall (fun x => f x = true) l -> filter f l = l.
Proof.
  induction 1 as [| x l Hx _ IH]; cbn; [reflexivity |]. now rewrite Hx, IH.
Qed.

(** X20: on a table fetched at the same date, the date filter of the
    first tab removes nothing, and the week table of the tab holds the
    first seven rows of the fetched table. *)
Theorem main_tab1_on_fresh_table
  (digit_value : char -> option Z) (int_max_str_digits : nat)
  (http : list str -> str -> http_result)
  (sort_values : list entry -> list entry)
  (label_set : list str -> list str) (now : date) :
  sort_contract sort_values ->
  exists table s,
    run (fetch_calendar_data digit_value int_max_str_digits http sort_values now)
    = (Ok table, s)
    /\ filter (fun e => date_geb (date_obj e) now) table = table
    /\ (table = []
        \/ exists before after,
             main_tab1 label_set now table
             = before ++ st_table (table_of (firstn 7 table)) :: after).
Proof.
  intros Hsort.
  destruct (scrape_calendar_spec digit_value int_max_str_digits http now)
    as (s & E & _ & F).
  rewrite (fetch_calendar_data_unfold _ _ _ sort_values now s E).
  eexists. exists s. split; [reflexivity |].
  set (table := match rows s with [] => [] | _ :: _ => sort_values (rows s) end).
  assert (G : Forall (fun e => date_geb (date_obj e) now = true) table).
  { unfold table. destruct (rows s) as [| e l]; [constructor |].
    eapply Permutation_Forall; [apply Hsort |].
    eapply Forall_impl; [| exact F]. intros a Ha. apply Ha. }
  pose proof (filter_all_true _ table G) as Hfil.
  split; [exact Hfil |].
  destruct table as [| t0 table'] eqn:Et; [now left | right].
  unfold main_tab1. cbv zeta. rewrite Hfil.
  eexists (_ :: _ ++ [_; _]), _. cbn [app]. rewrite <- app_assoc. reflexivity.
Qed.

(** X21: when both months fail, answer with a status other than 200 or
    have no table, the first tab shows the link to the official page, the
    message that the calendar could not be fetched and the button to the
    official page of the current month, and nothing else. *)
Theorem main_tab1_nothing_served
  (digit_value : char -> option Z) (int_max_str_digits : nat)
  (http : list str -> str -> http_result)
  (sort_values : list entry -> list entry)
  (label_set : list str -> list str) (now : date) (u1 u2 : str) :
  map (fun ym => get_url_by_date (fst ym) (snd ym)) (years_months now) = [u1; u2] ->
  barren (http [] u1) = true ->
  barren (http [u1] u2) = true ->
  exists table s,
    run (fetch_calendar_data digit_value int_max_str_digits http sort_values now)
    = (Ok table, s)
    /\ main_tab1 label_set now table
       = [st_markdown (official_link now);
          st_error (lit "カレンダーデータが取得できませんでした。");
          st_link_button (lit "公式サイトを直接見る") u1].
Proof.
  intros Hu H1 H2.
  rewrite (fetch_calendar_data_unfold _ _ _ sort_values now _
             (scrape_calendar_barren digit_value int_max_str_digits http now
                u1 u2 Hu H1 H2)).
  eexists. eexists. split; [reflexivity |].
  unfold years_months in Hu. cbn [map fst snd] in Hu. injection Hu as Hu _.
  subst u1. reflexivity.
Qed.

(** * The search tab *)

(** X22: the preview of a text is the text itself up to 300 characters;
    beyond that it is the first 300 characters followed by three dots,
    303 characters in all, which for a text of 301 or 302 characters is
    longer than the text. *)
Theorem preview_length (details : str) :
  firstn 300 (preview details) = firstn 300 details
  /\ List.length (preview details)
     = (if (300 <? List.length details)%nat then 303 else List.length details)%nat
  /\ ((List.length details <= 300)%nat -> preview details = details).
Proof.
  unfold preview. destruct (300 <? List.length details)%nat eqn:E.
  - apply Nat.ltb_lt in E. repeat split.
    + rewrite firstn_app, firstn_firstn.
      rewrite length_firstn.
      replace (300 - Nat.min 300 (List.length details))%nat with 0%nat by lia.
      cbn [firstn Nat.min]. now rewrite app_nil_r.
    + rewrite length_app, length_firstn.
      change (List.length (lit "...")) with 3%nat. lia.
    + lia.
  - repeat split.
Qed.

Section SearchFacts.

Variable regex_search : str -> str -> option bool.

Local Abbreviation mask_of := (contains_mask regex_search).
Local Abbreviation found_rows := (matches regex_search).
Local Abbreviation candidate := (show_candidate regex_search).
Local Abbreviation loop := (search_loop regex_search).
Local Abbreviation tab2 := (main_tab2 regex_search).

(** X23: the row announced as next collection for a record is the first
    row of the table whose label matches the calendar name of the record
    and whose date is not in the past; the rows before it fail one of the
    two tests. *)
Theorem matches_first_row
  (cal_name : str) (today : date) (df : list entry) (row : entry) (more : list entry) :
  found_rows cal_name today df = Some (row :: more) ->
  exists before after,
    df = before ++ row :: after
    /\ regex_search cal_name (gomi_type row) = Some true
    /\ date_geb (date_obj row) today = true
    /\ Forall (fun e => regex_search cal_name (gomi_type e) = Some false
                        \/ date_geb (date_obj e) today = false) before.
Proof.
  unfold matches. revert row more.
  induction df as [| e df IH]; intros row more; cbn [contains_mask].
  - cbn. discriminate.
  - destruct (regex_search cal_name (gomi_type e)) as [b |] eqn:Eb; [| discriminate].
    destruct (mask_of cal_name df) as [bs |] eqn:Em; [| discriminate].
    cbn [combine filter fst snd].
    destruct (b && date_geb (date_obj e) today) eqn:T.
    + cbn [map fst]. intros [= <- _].
      apply andb_true_iff in T. destruct T as [-> Hd].
      exists [], df. repeat split; auto.
    + intros H. destruct (IH row more H) as (before & after & -> & Hr & Hd & F).
      exists (e :: before), after. repeat split; auto.
      constructor; [| exact F].
      apply andb_false_iff in T. destruct T as [-> | T]; auto.
Qed.

Lemma contains_mask_none (pat : str) (df : list entry) :
  (exists e, In e df /\ regex_search pat (gomi_type e) = None) ->
  mask_of pat df = None.
Proof.
  induction df as [| x df IH]; intros (e & Hin & He); [destruct Hin |].
  cbn [contains_mask]. destruct Hin as [-> | Hin].
  - now rewrite He.
  - rewrite IH by eauto. destruct (regex_search pat (gomi_type x)); reflexivity.
Qed.

(** What a candidate adds to the page: never the warning of the search,
    and it ends in the exception only when the search for the calendar
    name raises. *)
Lemma show_candidate_shape (df : list entry) (today : date) (item : guide_record)
  (page : list widget) :
  exists r new,
    candidate df today item page = (r, page ++ new)
    /\ Forall (fun w => forall b, w <> st_warning b) new.
Proof.
  unfold show_candidate, wbind, show, wlift, wret.
  destruct df as [| e df].
  - eexists (Done tt), [_; _; _; _]. split.
    + rewrite <- !app_assoc. reflexivity.
    + repeat constructor; discriminate.
  - destruct (found_rows (calendar_name item) today (e :: df)) as [[| row more] |].
    + eexists (Done tt), [_; _; _; _]. split.
      * rewrite <- !app_assoc. reflexivity.
      * repeat constructor; discriminate.
    + eexists (Done tt), [_; _; _; _; _]. split.
      * rewrite <- !app_assoc. reflexivity.
      * repeat constructor; discriminate.
    + eexists Crashed, [_; _]. split.
      * rewrite <- !app_assoc. reflexivity.
      * repeat constructor; discriminate.
Qed.

Lemma search_loop_shape (query : str) (df : list entry) (clock : nat -> date)
  (items : list guide_record) (i : nat) (n : Z) (page : list widget) :
  exists r new,
    loop query df clock i n items page = (r, page ++ new)
    /\ Forall (fun w => forall b, w <> st_warning b) new
    /\ (forall k, r = Done k ->
                  k = n + Z.of_nat (List.length (filter (hit query) items))).
Proof.
  revert i n page. induction items as [| item items IH]; intros i n page.
  - exists (Done n), []. cbn. rewrite app_nil_r. repeat split; [constructor |].
    intros k [= <-]. lia.
  - cbn [search_loop filter]. destruct (hit query item).
    + unfold wbind.
      destruct (show_candidate_shape df (clock i) item page) as (r & new & E & F).
      rewrite E. destruct r as [[] |].
      * destruct (IH (S i) (n + 1) (page ++ new)) as (r' & new' & E' & F' & K).
        exists r', (new ++ new'). rewrite E', app_assoc.
        repeat split; [apply Forall_app; now split |].
        intros k Hk. rewrite (K k Hk). cbn [List.length]. lia.
      * exists Crashed, new. repeat split; [exact F | discriminate].
    + apply IH.
Qed.

Lemma search_loop_skip (query : str) (df : list entry) (clock : nat -> date)
  (before rest : list guide_record) (i : nat) (n : Z) (page : list widget) :
  forallb (fun item => negb (hit query item)) before = true ->
  loop query df clock i n (before ++ rest) page
  = loop query df clock (i + List.length before) n rest page.
Proof.
  revert i. induction before as [| item before IH]; intros i H.
  - cbn. now rewrite Nat.add_0_r.
  - cbn [forallb] in H. apply andb_true_iff in H. destruct H as [Hi H].
    apply negb_true_iff in Hi. cbn [app search_loop List.length]. rewrite Hi.
    rewrite (IH (S i) H). f_equal. lia.
Qed.

(** X24: for a query that is not empty, the search tab shows the message
    that nothing was found exactly when no record of the guide is hit:
    without a hit it shows the header, the search field and that message
    and nothing else, with a hit it never shows the message. *)
Theorem main_tab2_not_found
  (query : str) (df : list entry) (guide_list : list guide_record)
  (clock : nat -> date) :
  query <> [] ->
  (forallb (fun item => negb (hit query item)) guide_list = true ->
   tab2 query df guide_list clock []
   = (Done tt,
      [st_header (lit "🔍 ごみ分別検索");
       st_text_input (lit "検索キーワード (例: 電池, フライパン)") [];
       st_warning (not_found_text query)]))
  /\ (existsb (hit query) guide_list = true ->
      forall b, ~ In (st_warning b) (snd (tab2 query df guide_list clock []))).
Proof.
  intros Hq. destruct query as [| c query]; [congruence |].
  unfold main_tab2, wbind, show. cbn [truthy app].
  set (top := [st_header (lit "🔍 ごみ分別検索");
               st_text_input (lit "検索キーワード (例: 電池, フライパン)") []]).
  split.
  - intros H.
    pose proof (search_loop_skip (c :: query) df clock guide_list [] 0 0 top H) as S.
    rewrite app_nil_r in S. rewrite S. reflexivity.
  - intros H b.
    destruct (search_loop_shape (c :: query) df clock guide_list 0 0 top)
      as (r & new & E & F & K).
    rewrite E.
    assert (NW : ~ In (st_warning b) (top ++ new)).
    { intros Hin. apply in_app_or in Hin. destruct Hin as [[Hin | [Hin | []]] | Hin].
      - discriminate Hin.
      - discriminate Hin.
      - rewrite Forall_forall in F. exact (F _ Hin b eq_refl). }
    destruct r as [k |]; [| exact NW].
    specialize (K k eq_refl).
    assert (P : (0 < List.length (filter (hit (c :: query)) guide_list))%nat).
    { apply existsb_exists in H. destruct H as (x & Hin & Hx).
      assert (X : In x (filter (hit (c :: query)) guide_list))
        by (apply filter_In; auto).
      destruct (filter (hit (c :: query)) guide_list); [destruct X | cbn; lia]. }
    assert (Z0 : (k =? 0) = false) by (apply Z.eqb_neq; lia).
    rewrite Z0. exact NW.
Qed.

(** X25: when the search for the calendar name of the first record hit
    raises on a label of the table, be it the label of a past row, the
    tab ends in that exception: it has shown the header, the search field
    and the title of that record, and shows neither its link and preview
    nor any record after it. *)
Theorem main_tab2_bad_pattern
  (query : str) (df : list entry) (clock : nat -> date)
  (before after : list guide_record) (item : guide_record) (e : entry) :
  query <> [] ->
  forallb (fun item => negb (hit query item)) before = true ->
  hit query item = true ->
  In e df ->
  regex_search (calendar_name item) (gomi_type e) = None ->
  tab2 query df (before ++ item :: after) clock []
  = (Crashed,
     [st_header (lit "🔍 ごみ分別検索");
      st_text_input (lit "検索キーワード (例: 電池, フライパン)") [];
      st_container;
      st_markdown (candidate_text (category_name item))]).
Proof.
  intros Hq Hb Hi Hin He. destruct query as [| c query]; [congruence |].
  unfold main_tab2, wbind, show. cbn [truthy app].
  rewrite (search_loop_skip (c :: query) df clock before (item :: after) 0 0 _ Hb).
  cbn [search_loop]. rewrite Hi.
  unfold wbind, show_candidate, wbind, show, wlift, matches.
  rewrite (contains_mask_none (calendar_name item) df) by eauto.
  destruct df as [| e0 df']; [destruct Hin |]. reflexivity.
Qed.

End SearchFacts.

(** * Instances of the further theorems *)

Lemma label_set_nodup_contract : label_set_contract label_set_nodup.
Proof.
  intros l. unfold label_set_nodup. split; [apply NoDup_nodup |].
  intros x. apply nodup_In.
Qed.

Lemma sample_table_sorted : StronglySorted entry_le sample_table.
Proof.
  unfold sample_table. repeat constructor.
Qed.

Lemma fetch_month_rows_nine_days :
  fetch_month digit_value_jp default_max_str_digits web_nine_days
    (mkdate 2024 4 1) (2024, 4) empty_store
  = (Ok tt,
     mkstore ([] ++ [get_url_by_date 2024 4])
             ([] ++ month_rows digit_value_jp default_max_str_digits
                      (mkdate 2024 4 1) 2024 4 (concat nine_days))).
Proof.
  apply (fetch_month_rows digit_value_jp default_max_str_digits web_nine_days
           (mkdate 2024 4 1) 2024 4 empty_store
           (mkresponse 200 (mkdocument (Some nine_days) None None)) nine_days);
    reflexivity.
Defined.

Lemma cell_with_day_adds_row_5 :
  exists w,
    In w weekdays
    /\ get_weekday_str 2024 4 5 = Ok w
    /\ parse_cell digit_value_jp default_max_str_digits (mkdate 2024 4 1) 2024 4
         (lit "5" ++ lit "燃やすごみ") empty_store
       = (Ok tt,
          mkstore []
                  ([] ++ [mkentry (mkdate 2024 4 5)
                                  (str_of_int 4 ++ c_slash :: str_of_int 5) w
                                  (upto_newline (lit "燃やすごみ"))])).
Proof.
  apply (cell_with_day_adds_row digit_value_jp default_max_str_digits
           (mkdate 2024 4 1) 2024 4 (lit "5") (lit "燃やすごみ") 5
           (mkdate 2024 4 5) empty_store).
  - discriminate.
  - repeat constructor; discriminate.
  - reflexivity.
  - reflexivity.
  - reflexivity.
  - reflexivity.
Defined.

Lemma cell_without_digit_skipped_label :
  parse_cell digit_value_jp default_max_str_digits (mkdate 2024 4 1) 2024 4
    (lit "燃やすごみ") empty_store
  = (Ok tt, empty_store).
Proof.
  apply (cell_without_digit_skipped digit_value_jp default_max_str_digits
           (mkdate 2024 4 1) 2024 4 (lit "燃やすごみ") empty_store).
  reflexivity.
Defined.

Lemma cell_in_the_past_skipped_1 :
  parse_cell digit_value_jp default_max_str_digits (mkdate 2024 4 10) 2024 4
    (lit "1燃やすごみ") empty_store
  = (Ok tt, empty_store).
Proof.
  apply (cell_in_the_past_skipped digit_value_jp default_max_str_digits
           (mkdate 2024 4 10) 2024 4 (lit "1燃やすごみ") (lit "1") (lit "燃やすごみ")
           1 (mkdate 2024 4 1) empty_store);
    reflexivity.
Defined.

Lemma cells_after_31_dropped :
  (forall s,
      parse_cell digit_value_jp default_max_str_digits (mkdate 2024 4 1) 2024 4
        (lit "31") s = (Raise ValueError, s))
  /\ (forall before after,
        month_rows digit_value_jp default_max_str_digits (mkdate 2024 4 1) 2024 4
          (before ++ lit "31" :: after)
        = month_rows digit_value_jp default_max_str_digits (mkdate 2024 4 1) 2024 4
            before).
Proof.
  apply (cells_after_invalid_day_dropped digit_value_jp default_max_str_digits
           (mkdate 2024 4 1) 2024 4 (lit "31") (lit "31") [] 31 ValueError);
    reflexivity.
Defined.

Lemma fetch_calendar_data_row_shape_april :
  exists table s,
    run (fetch_calendar_data digit_value_jp default_max_str_digits web_april
           sort_stable (mkdate 2024 4 1)) = (Ok table, s)
    /\ Forall (fun e =>
                 let d := date_obj e in
                 In (year d, month d) (years_months (mkdate 2024 4 1))
                 /\ hizuke e = str_of_int (month d) ++ c_slash :: str_of_int (day d)
                 /\ ~ In c_newline (gomi_type e)) table.
Proof.
  apply (fetch_calendar_data_row_shape digit_value_jp default_max_str_digits
           web_april sort_stable (mkdate 2024 4 1)).
  intros l. apply sort_stable_contract.
Defined.

Lemma fetch_calendar_data_web_down :
  run (fetch_calendar_data digit_value_jp default_max_str_digits web_down
         sort_stable (mkdate 2024 4 1))
  = (Ok [], mkstore [get_url_by_date 2024 4; get_url_by_date 2024 5] []).
Proof.
  apply (fetch_calendar_data_nothing_served digit_value_jp default_max_str_digits
           web_down sort_stable (mkdate 2024 4 1)
           (get_url_by_date 2024 4) (get_url_by_date 2024 5));
    reflexivity.
Defined.

Lemma get_weekday_str_total_30_february :
  (exists dt w,
      date_new 2024 2 30 = Ok dt /\ get_weekday_str 2024 2 30 = Ok w /\ In w weekdays)
  \/ (date_new 2024 2 30 = Raise ValueError /\ get_weekday_str 2024 2 30 = Ok []).
Proof.
  apply (get_weekday_str_total 2024 2 30). reflexivity.
Defined.

Lemma fetch_detailed_guide_records_three :
  run (fetch_detailed_guide web_guide_three urljoin_absolute list_set_nodup)
  = (Ok (crawl_rows web_guide_three [base_url] (list_set_nodup three_targets)),
     mkstore (base_url :: map snd (list_set_nodup three_targets))
             (crawl_rows web_guide_three [base_url] (list_set_nodup three_targets))).
Proof.
  apply (fetch_detailed_guide_records web_guide_three urljoin_absolute list_set_nodup
           (mkresponse 200 (mkdocument None (Some (mkregion three_links [])) None))
           (mkregion three_links []) three_targets);
    reflexivity.
Defined.

Lemma fetch_detailed_guide_web_down :
  run (fetch_detailed_guide web_down urljoin_absolute list_set_nodup)
  = (Ok [], mkstore [base_url] []).
Proof.
  apply (fetch_detailed_guide_no_index web_down urljoin_absolute list_set_nodup).
  exact I.
Defined.

Lemma fetch_detailed_guide_bracket_link :
  run (fetch_detailed_guide web_guide_bad_link urljoin_brackets list_set_nodup)
  = (Ok [], mkstore [base_url] []).
Proof.
  apply (fetch_detailed_guide_bad_link web_guide_bad_link urljoin_brackets
           list_set_nodup
           (mkresponse 200
              (mkdocument None
                 (Some (mkregion [(Some moyasu_url, moyasu_title);
                                  (Some (lit "http://[nishi/"), lit "資源A")] []))
                 None))
           (mkregion [(Some moyasu_url, moyasu_title);
                      (Some (lit "http://[nishi/"), lit "資源A")] [])
           ValueError);
    reflexivity.
Defined.

Lemma fetch_detailed_guide_record_origin_three :
  exists records s,
    run (fetch_detailed_guide web_guide_three urljoin_absolute list_set_nodup)
    = (Ok records, s)
    /\ Forall (fun r =>
                 calendar_name r = map_guide_to_calendar (category_name r)
                 /\ existsb (fun k => contains k (category_name r)) keywords = true
                 /\ exists h,
                      In (Some h, category_name r) three_links
                      /\ h <> []
                      /\ urljoin_absolute base_url h = Ok (url r)) records.
Proof.
  apply (fetch_detailed_guide_record_origin web_guide_three urljoin_absolute
           list_set_nodup
           (mkresponse 200 (mkdocument None (Some (mkregion three_links [])) None))
           (mkregion three_links []) three_targets).
  - exact list_set_nodup_contract.
  - reflexivity.
  - reflexivity.
  - reflexivity.
Defined.

Lemma fetch_detailed_guide_partial_failure_three :
  exists records s,
    run (fetch_detailed_guide (fun _ u => web_guide_three [] u) urljoin_absolute
           list_set_nodup) = (Ok records, s)
    /\ forall r,
         In r records
         <-> exists target,
               In target three_targets
               /\ In r (page_record (web_guide_three [] (snd target)) target).
Proof.
  apply (fetch_detailed_guide_partial_failure (fun u => web_guide_three [] u)
           urljoin_absolute list_set_nodup
           (mkresponse 200 (mkdocument None (Some (mkregion three_links [])) None))
           (mkregion three_links []) three_targets).
  - exact list_set_nodup_contract.
  - reflexivity.
  - reflexivity.
  - reflexivity.
Defined.

Lemma main_tab1_today_sample :
  exists row,
    date_obj row = mkdate 2024 4 1
    /\ exists rest,
        main_tab1 label_set_nodup (mkdate 2024 4 1) sample_table
        = st_markdown (official_link (mkdate 2024 4 1))
          :: st_markdown (lit "### 📅 今日の収集")
          :: st_success (today_text row)
          :: st_markdown (today_type row)
          :: st_divider :: rest.
Proof.
  eexists.
  eapply (main_tab1_today label_set_nodup (mkdate 2024 4 1) sample_table).
  lazy. reflexivity.
Defined.

Lemma main_tab1_next_sample :
  exists row,
    (exists rest,
        main_tab1 label_set_nodup (mkdate 2024 3 31) sample_table
        = st_markdown (official_link (mkdate 2024 3 31))
          :: st_info (next_text row) :: st_divider :: rest)
    /\ forall e, In e sample_table ->
         date_geb (date_obj e) (mkdate 2024 3 31) = true -> entry_le row e.
Proof.
  eexists.
  eapply (main_tab1_next label_set_nodup (mkdate 2024 3 31) sample_table).
  - exact sample_table_sorted.
  - reflexivity.
  - lazy. reflexivity.
Defined.

Lemma main_tab1_caption_never_shown_sample :
  ~ In (st_caption (lit "※これ以外の収集予定は今のところありません。"))
       (main_tab1 label_set_nodup (mkdate 2024 4 1) sample_table).
Proof.
  apply (main_tab1_caption_never_shown label_set_nodup (mkdate 2024 4 1) sample_table).
  exact label_set_nodup_contract.
Defined.

Lemma main_tab1_on_fresh_table_nine_days :
  exists table s,
    run (fetch_calendar_data digit_value_jp default_max_str_digits web_nine_days
           sort_stable (mkdate 2024 4 1)) = (Ok table, s)
    /\ filter (fun e => date_geb (date_obj e) (mkdate 2024 4 1)) table = table
    /\ (table = []
        \/ exists before after,
             main_tab1 label_set_nodup (mkdate 2024 4 1) table
             = before ++ st_table (table_of (firstn 7 table)) :: after).
Proof.
  apply (main_tab1_on_fresh_table digit_value_jp default_max_str_digits
           web_nine_days sort_stable label_set_nodup (mkdate 2024 4 1)).
  exact sort_stable_contract.
Defined.

Lemma main_tab1_web_down :
  exists table s,
    run (fetch_calendar_data digit_value_jp default_max_str_digits web_down
           sort_stable (mkdate 2024 4 1)) = (Ok table, s)
    /\ main_tab1 label_set_nodup (mkdate 2024 4 1) table
       = [st_markdown (official_link (mkdate 2024 4 1));
          st_error (lit "カレンダーデータが取得できませんでした。");
          st_link_button (lit "公式サイトを直接見る") (get_url_by_date 2024 4)].
Proof.
  apply (main_tab1_nothing_served digit_value_jp default_max_str_digits
           web_down sort_stable label_set_nodup (mkdate 2024 4 1)
           (get_url_by_date 2024 4) (get_url_by_date 2024 5));
    reflexivity.
Defined.

Lemma matches_first_row_bottle :
  exists row before after,
    sample_table = before ++ row :: after
    /\ regex_literal (lit "ペットボトル") (gomi_type row) = Some true
    /\ date_geb (date_obj row) (mkdate 2024 4 1) = true
    /\ Forall (fun e => regex_literal (lit "ペットボトル") (gomi_type e) = Some false
                        \/ date_geb (date_obj e) (mkdate 2024 4 1) = false) before.
Proof.
  eexists.
  eapply (matches_first_row regex_literal (lit "ペットボトル") (mkdate 2024 4 1)
            sample_table).
  lazy. reflexivity.
Defined.

Lemma main_tab2_not_found_battery :
  (forallb (fun item => negb (hit (lit "電池") item)) sample_guide = true ->
   main_tab2 regex_literal (lit "電池") sample_table sample_guide first_of_april []
   = (Done tt,
      [st_header (lit "🔍 ごみ分別検索");
       st_text_input (lit "検索キーワード (例: 電池, フライパン)") [];
       st_warning (not_found_text (lit "電池"))]))
  /\ (existsb (hit (lit "電池")) sample_guide = true ->
      forall b,
        ~ In (st_warning b)
             (snd (main_tab2 regex_literal (lit "電池") sample_table sample_guide
                     first_of_april []))).
Proof.
  apply (main_tab2_not_found regex_literal (lit "電池") sample_table sample_guide
           first_of_april).
  discriminate.
Defined.

Lemma main_tab2_bad_pattern_bracket :
  main_tab2 regex_literal (lit "危険") sample_table
    (sample_guide ++ bracket_record :: []) first_of_april []
  = (Crashed,
     [st_header (lit "🔍 ごみ分別検索");
      st_text_input (lit "検索キーワード (例: 電池, フライパン)") [];
      st_container;
      st_markdown (candidate_text (category_name bracket_record))]).
Proof.
  eapply (main_tab2_bad_pattern regex_literal (lit "危険") sample_table first_of_april
            sample_guide [] bracket_record).
  - discriminate.
  - reflexivity.
  - reflexivity.
  - unfold sample_table. left. reflexivity.
  - reflexivity.
Defined.

Lemma main_tab1_later_sample :
  let future_df :=
    filter (fun e => date_geb (date_obj e) (mkdate 2024 4 1)) sample_table in
  let one_week_df := firstn 7 future_df in
  let rest_df := skipn 7 future_df in
  let missing_types :=
    filter (fun t => negb (existsb (str_eqb t) (map gomi_type one_week_df)))
           (map gomi_type rest_df) in
  NoDup (label_set_nodup missing_types)
  /\ (forall g,
        In g (label_set_nodup missing_types)
        <-> In g (map gomi_type rest_df) /\ ~ In g (map gomi_type one_week_df))
  /\ exists before shown,
       main_tab1 label_set_nodup (mkdate 2024 4 1) sample_table
       = before
           ++ st_table (table_of one_week_df)
           :: st_subheader (lit "👀 次回以降の予定 (1週間以内にないもの)")
           :: shown
           ++ match missing_types with
              | [] => [st_caption (lit "※主要なゴミはすべて1週間以内に収集があります。")]
              | _ :: _ => []
              end
       /\ Forall2 (fun g w =>
                     exists row,
                       find (fun e => str_eqb (gomi_type e) g) rest_df = Some row
                       /\ w = st_info (later_text g row))
                  (label_set_nodup missing_types) shown.
Proof.
  apply (main_tab1_later label_set_nodup (mkdate 2024 4 1) sample_table).
  - exact label_set_nodup_contract.
  - unfold sample_table. cbn. discriminate.
Defined.
